(** * jwtgo: the HTTP authentication controller

    A shallow embedding of the three handlers of [AuthController]
    (sign-up, sign-in, refresh), of [request.SetCookies] and of the
    data-transfer objects they exchange, followed by the properties of
    the session protocol that the handlers implement.

    Go values are modelled as follows.
    - [string] is Rocq's [string]; [time.Duration] is an integer count
      of nanoseconds; an instant is an integer count of nanoseconds.
    - [gin.H] (a [map[string]any]) is a finite map from strings.
    - an [error] is a tree: its dynamic type, its [Error()] text and the
      errors it wraps, which is what [errors.As] walks.
    - a handler mutates the [*gin.Context] it is given, reads the wall
      clock, writes to the logger and calls the injected service: it is
      a function on a [World] that either returns or panics. *)

From Stdlib Require Import ZArith Ascii String List.
From stdpp Require Import base strings gmap list.

Set Warnings "-register-all".

Open Scope Z_scope.

(** ** package time *)

Module time.

(** [time.Duration] is an [int64] count of nanoseconds.  The source only
    builds durations from constant expressions, which Go evaluates
    exactly. *)
Definition Duration : Type := Z.

Definition Nanosecond : Duration := 1.
Definition Microsecond : Duration := 1000 * Nanosecond.
Definition Millisecond : Duration := 1000 * Microsecond.
Definition Second : Duration := 1000 * Millisecond.
Definition Minute : Duration := 60 * Second.
Definition Hour : Duration := 60 * Minute.

(** An instant, as nanoseconds since the epoch.  [UTC] changes the
    location used for display, not the instant. *)
Definition Time : Type := Z.

Definition UTC (t : Time) : Time := t.

Definition Add (t : Time) (d : Duration) : Time := t + d.

End time.

(** ** package jwtgo/internal/app/error *)

Module customErr.

(** Modelled from the spec: the package that declares the failure kinds
    is not part of the sources at hand.  The handlers name five struct
    types of it, one per failure kind of the session protocol; the text
    their [Error()] method returns is not fixed by the spec and is carried
    by the error value (see [errors.error]). *)
Inductive Kind : Type :=
| AlreadyExistsError
| InvalidCredentialsError
| InvalidTokenError
| ExpiredTokenError
| UserNotFoundError.

#[global] Instance Kind_eq_dec : EqDecision Kind.
Proof. solve_decision. Defined.

End customErr.

(** ** package errors *)

Module errors.

(** The dynamic type of an error value. *)
Inductive ErrType : Type :=
| Custom (k : customErr.Kind)      (* *customErr.<k> *)
| ErrorString                      (* what errors.New returns *)
| WrapError                        (* what fmt.Errorf returns with %w *)
| DeadlineExceededError            (* context.deadlineExceededError *)
| Foreign (name : string).         (* any other type *)

#[global] Instance ErrType_eq_dec : EqDecision ErrType.
Proof. solve_decision. Defined.

(** An error value: dynamic type, the text of [Error()], and the errors
    returned by [Unwrap()] (none, one, or several). *)
Inductive error : Type :=
| MkError (dyn : ErrType) (text : string) (inner : list error).

Definition Error (e : error) : string :=
  match e with MkError _ s _ => s end.

Definition New (s : string) : error := MkError ErrorString s [].

(** [fmt.Errorf(prefix + ": %w", e)]. *)
Definition Wrapf (prefix : string) (e : error) : error :=
  MkError WrapError (prefix +:+ ": " +:+ Error e) [e].

(** [errors.As(err, &target)] with [target] a variable of type [T]:
    true when some error of the tree of [err], visited depth first, has
    dynamic type [T]. *)
Fixpoint As (err : error) (T : ErrType) : bool :=
  match err with
  | MkError t _ l =>
      if decide (t = T) then true else existsb (fun e => As e T) l
  end.

End errors.

Abbreviation error := errors.error.

(** ** package context *)

Module context.

(** A context is observed through its deadline only. *)
Record Context : Type := { Deadline : option time.Time }.

Definition Background : Context := {| Deadline := None |}.

Definition DeadlineExceeded : error :=
  errors.MkError errors.DeadlineExceededError "context deadline exceeded" [].

End context.

(** ** package jwtgo/internal/app/controller/http/dto *)

Module dto.

Record UserRefreshTokenDTO : Type :=
  { RefreshToken : string }.

Record UserTokensDTO : Type :=
  { AccessToken : string;
    Tokens_RefreshToken : string }.

Record UserCredentialsDTO : Type :=
  { Email : string;
    Password : string }.

End dto.

(** ** package jwtgo/pkg/request/schema *)

Module schema.

(** Modelled from the spec: the declaration of [schema.Cookie] is not
    part of the sources at hand.  It is the Cookie Directive of the spec,
    [{ name, value, duration }]; the three fields are the ones that
    [request.SetCookies] reads and that the handlers fill. *)
Record Cookie : Type :=
  { Name : string;
    Value : string;
    Duration : time.Duration }.

End schema.

(** ** package net/url *)

Module url.

Definition byte (c : ascii) : Z := Z.of_N (N_of_ascii c).

Definition ishex (c : ascii) : bool :=
  let b := byte c in
  (48 <=? b) && (b <=? 57) || (97 <=? b) && (b <=? 102)
  || (65 <=? b) && (b <=? 70).

Definition unhex (c : ascii) : Z :=
  let b := byte c in
  if (48 <=? b) && (b <=? 57) then b - 48
  else if (97 <=? b) && (b <=? 102) then b - 97 + 10
  else if (65 <=? b) && (b <=? 70) then b - 65 + 10
  else 0.

(** First pass of [unescape]: every [%] is followed by two hex digits. *)
Fixpoint wellEscaped (s : string) : bool :=
  match s with
  | EmptyString => true
  | String "%" (String a (String b r)) => ishex a && ishex b && wellEscaped r
  | String "%" _ => false
  | String _ r => wellEscaped r
  end.

(** Second pass of [unescape] in query-component mode. *)
Fixpoint decode (s : string) : string :=
  match s with
  | EmptyString => EmptyString
  | String "%" (String a (String b r)) =>
      String (ascii_of_N (Z.to_N (Z.lor (Z.shiftl (unhex a) 4) (unhex b))))
             (decode r)
  | String "+" r => String " " (decode r)
  | String c r => String c (decode r)
  end.

Definition EscapeError : error :=
  errors.MkError (errors.Foreign "url.EscapeError") "invalid URL escape" [].

Definition QueryUnescape (s : string) : string * option error :=
  if wellEscaped s then (decode s, None) else (EmptyString, Some EscapeError).

End url.

(** ** package net/http *)

Module http.

Definition StatusOK : Z := 200.
Definition StatusUnauthorized : Z := 401.
Definition StatusConflict : Z := 409.
Definition StatusInternalServerError : Z := 500.

Inductive SameSiteMode : Type :=
| SameSiteDefaultMode
| SameSiteLaxMode
| SameSiteStrictMode
| SameSiteNoneMode.

(** The fields of [http.Cookie] that [request.SetCookies] sets; the
    others keep their zero value. *)
Record Cookie : Type :=
  { Name : string;
    Value : string;
    Path : string;
    Domain : string;
    Expires : time.Time;
    HttpOnly : bool;
    Secure : bool;
    SameSite : SameSiteMode }.

Definition ErrNoCookie : error := errors.New "http: named cookie not present".

(** [httpguts.IsTokenRune]. *)
Definition isToken (c : ascii) : bool :=
  let b := url.byte c in
  (48 <=? b) && (b <=? 57) || (65 <=? b) && (b <=? 90)
  || (97 <=? b) && (b <=? 122)
  || existsb (fun d => bool_decide (c = d))
             (list_ascii_of_string "!#$%&'*+-.^_`|~").

Definition isCookieNameValid (raw : string) : bool :=
  match raw with
  | EmptyString => false
  | _ => forallb isToken (list_ascii_of_string raw)
  end.

(** The method [Cookie(name)] of [http.Request], over the cookies parsed from the request
    header, in header order: the first cookie of that name. *)
Fixpoint Request_Cookie (cookies : list (string * string)) (name : string)
  : option string :=
  match cookies with
  | [] => None
  | (n, v) :: rest =>
      if decide (n = name) then Some v else Request_Cookie rest name
  end.

(** [http.SetCookie(w, cookie)] on the list of the response's
    [Set-Cookie] headers: the header is added unless the cookie's name is
    invalid.  The list keeps the cookie structures handed to [net/http];
    what [Cookie.String()] writes of their value and of their expiry is
    given by [writtenValue] and [writtenExpires] below. *)
Definition SetCookie (headers : list Cookie) (cookie : Cookie) : list Cookie :=
  if isCookieNameValid (Name cookie) then headers ++ [cookie] else headers.

(** [validCookieValueByte]: printable ASCII except the double quote,
    the semicolon and the backslash. *)
Definition validCookieValueByte (c : ascii) : bool :=
  let b := url.byte c in
  (32 <=? b) && (b <? 127)
  && negb (b =? 34) && negb (b =? 59) && negb (b =? 92).

(** [sanitizeOrWarn(field, valid, v)]: the bytes of [v] that are not
    valid are dropped. *)
Fixpoint sanitizeOrWarn (valid : ascii → bool) (v : string) : string :=
  match v with
  | EmptyString => EmptyString
  | String c r =>
      if valid c then String c (sanitizeOrWarn valid r)
      else sanitizeOrWarn valid r
  end.

(** [strings.ContainsAny(v, chars)] *)
Fixpoint ContainsAny (v : string) (chars : list ascii) : bool :=
  match v with
  | EmptyString => false
  | String c r => existsb (λ d, bool_decide (c = d)) chars || ContainsAny r chars
  end.

Definition doubleQuote : ascii := ascii_of_N 34.

(** [sanitizeCookieValue(v)] for a cookie that is not marked as quoted:
    invalid bytes are dropped, and what is left is put between double
    quotes when it holds a space or a comma. *)
Definition sanitizeCookieValue (v : string) : string :=
  let v := sanitizeOrWarn validCookieValueByte v in
  match v with
  | EmptyString => v
  | _ =>
      if ContainsAny v [" "%char; ","%char]
      then String doubleQuote (v +:+ String doubleQuote EmptyString)
      else v
  end.

(** The first instant of the year 1601, in nanoseconds since the epoch
    (134774 days before it). *)
Definition year1601 : time.Time := - (134774 * 24 * time.Hour).

(** [validCookieExpires(t)], that is [t.Year() >= 1601]. *)
Definition validCookieExpires (t : time.Time) : bool := year1601 <=? t.

(** What [Cookie.String()] writes after [Name=]. *)
Definition writtenValue (c : Cookie) : string := sanitizeCookieValue (Value c).

(** The instant [Cookie.String()] writes after [Expires=], in seconds
    since the epoch: the attribute is left out before the year 1601, and
    [TimeFormat] has no field below the second. *)
Definition writtenExpires (c : Cookie) : option Z :=
  if validCookieExpires (Expires c) then Some (Expires c / time.Second)
  else None.

End http.

(** ** package github.com/gin-gonic/gin *)

Module gin.

(** The values of type [any] that the handlers store or read. *)
Inductive any : Type :=
| VString (s : string)
| VUserCredentialsDTO (d : dto.UserCredentialsDTO)
| VOther (type_name : string).

Abbreviation H := (gmap string any).

(** [*gin.Context]: the keys set by earlier middleware, the cookies of
    the request, and the response written so far (status, [Set-Cookie]
    headers, JSON documents of the body). *)
Record Context : Type :=
  { Keys : gmap string any;
    RequestCookies : list (string * string);
    Status : Z;
    SetCookieHeaders : list http.Cookie;
    Body : list H }.

(** [c.MustGet(key)]: [None] stands for the panic on a missing key. *)
Definition MustGet (c : Context) (key : string) : option any :=
  Keys c !! key.

(** [c.Cookie(name)]: the named request cookie, unescaped; the error of
    the unescaping is dropped, as gin does. *)
Definition Cookie (c : Context) (name : string) : string * option error :=
  match name with
  | EmptyString => (EmptyString, Some http.ErrNoCookie)
  | _ =>
      match http.Request_Cookie (RequestCookies c) name with
      | None => (EmptyString, Some http.ErrNoCookie)
      | Some v => (fst (url.QueryUnescape v), None)
      end
  end.

(** [c.JSON(code, obj)]: sets the status and writes [obj] to the body. *)
Definition JSON (c : Context) (code : Z) (obj : H) : Context :=
  {| Keys := Keys c;
     RequestCookies := RequestCookies c;
     Status := code;
     SetCookieHeaders := SetCookieHeaders c;
     Body := Body c ++ [obj] |}.

(** The effect of [http.SetCookie(c.Writer, cookie)] on the context. *)
Definition Writer_SetCookie (c : Context) (cookie : http.Cookie) : Context :=
  {| Keys := Keys c;
     RequestCookies := RequestCookies c;
     Status := Status c;
     SetCookieHeaders := http.SetCookie (SetCookieHeaders c) cookie;
     Body := Body c |}.

End gin.

(** ** package jwtgo/internal/app/interface/service *)

Module serviceInterface.

(** Modelled from the spec: the declaration of the [AuthService]
    interface is not part of the sources at hand.  The spec gives its
    three methods, each taking the context and an envelope and returning
    a value and an error; the handlers call them as [SignUp], [SignIn]
    and [Refresh].  The implementation is injected: it may keep any state
    [S] of its own (accounts, token bookkeeping), threaded through each
    call.  [U] is the type of the account reference [SignUp] returns. *)
Record AuthService (S U : Type) : Type :=
  { SignUp : context.Context → dto.UserCredentialsDTO → S →
             (U * option error) * S;
    SignIn : context.Context → dto.UserCredentialsDTO → S →
             (dto.UserTokensDTO * option error) * S;
    Refresh : context.Context → dto.UserRefreshTokenDTO → S →
              (dto.UserTokensDTO * option error) * S }.

Arguments SignUp {S U} _ _ _ _.
Arguments SignIn {S U} _ _ _ _.
Arguments Refresh {S U} _ _ _ _.

End serviceInterface.

(** ** Execution model *)

(** A call of the injected service, as an observer of the service sees
    it. *)
Inductive Call : Type :=
| SignUpCall (ctx : context.Context) (d : dto.UserCredentialsDTO)
| SignInCall (ctx : context.Context) (d : dto.UserCredentialsDTO)
| RefreshCall (ctx : context.Context) (d : dto.UserRefreshTokenDTO).

(** One call of [logger.Error(msg, err)]. *)
Record LogEntry : Type := { Message : string; Cause : error }.

(** Everything a handler reads or changes. *)
Record World (S : Type) : Type :=
  { ginCtx : gin.Context;          (* the *gin.Context of the request *)
    store : S;                     (* the state behind the service *)
    clock : nat → time.Time;       (* successive readings of time.Now() *)
    ticks : nat;                   (* readings taken so far *)
    timers : list time.Time;       (* deadlines of the armed contexts *)
    logged : list LogEntry;        (* what the logger received *)
    calls : list Call }.           (* the calls made to the service *)

Arguments ginCtx {S} _.
Arguments store {S} _.
Arguments clock {S} _.
Arguments ticks {S} _.
Arguments timers {S} _.
Arguments logged {S} _.
Arguments calls {S} _.

Inductive PanicValue : Type :=
| KeyDoesNotExist (key : string)
| InterfaceConversion (want : string).

Inductive Result (W A : Type) : Type :=
| Returned (a : A) (w : W)
| Panicked (p : PanicValue) (w : W).

Arguments Returned {W A} _ _.
Arguments Panicked {W A} _ _.

(** A Go computation over the world. *)
Definition Go (S A : Type) : Type := World S → Result (World S) A.

#[global] Instance Go_ret {S} : MRet (Go S) :=
  λ A a w, Returned a w.

#[global] Instance Go_bind {S} : MBind (Go S) :=
  λ A B f m w,
    match m w with
    | Returned a w' => f a w'
    | Panicked p w' => Panicked p w'
    end.

(** [defer d(); body]: [d] runs when [body] returns and when it panics. *)
Definition defer {S A} (d : Go S unit) (body : Go S A) : Go S A :=
  λ w,
    match body w with
    | Returned a w' =>
        match d w' with
        | Returned _ w'' => Returned a w''
        | Panicked p w'' => Panicked p w''
        end
    | Panicked p w' =>
        match d w' with
        | Returned _ w'' => Panicked p w''
        | Panicked p' w'' => Panicked p' w''
        end
    end.

Section Primitives.
Context {S : Type}.

Definition setGinCtx (c : gin.Context) (w : World S) : World S :=
  {| ginCtx := c; store := store w; clock := clock w; ticks := ticks w;
     timers := timers w; logged := logged w; calls := calls w |}.

Definition setTimers (l : list time.Time) (w : World S) : World S :=
  {| ginCtx := ginCtx w; store := store w; clock := clock w;
     ticks := ticks w; timers := l; logged := logged w; calls := calls w |}.

(** [time.Now()]: the next reading of the clock. *)
Definition time_Now : Go S time.Time :=
  λ w, Returned (clock w (ticks w))
         {| ginCtx := ginCtx w; store := store w; clock := clock w;
            ticks := Datatypes.S (ticks w); timers := timers w;
            logged := logged w; calls := calls w |}.

(** Removes the first timer armed for [d]. *)
Fixpoint disarm (d : time.Time) (l : list time.Time) : list time.Time :=
  match l with
  | [] => []
  | x :: r => if decide (x = d) then r else x :: disarm d r
  end.

(** [context.WithTimeout(parent, timeout)], that is
    [WithDeadline(parent, time.Now().Add(timeout))]: unless the parent
    already ends earlier, the new context carries the deadline and a
    timer is armed for it; the returned [cancel] releases the timer. *)
Definition context_WithTimeout (parent : context.Context)
    (timeout : time.Duration) : Go S (context.Context * Go S unit) :=
  now ← time_Now;
  let d := time.Add now timeout in
  let arm : Go S (context.Context * Go S unit) :=
    λ w, Returned ({| context.Deadline := Some d |},
                   (λ w', Returned tt (setTimers (disarm d (timers w')) w')))
                  (setTimers (d :: timers w) w) in
  match context.Deadline parent with
  | Some cur => if cur <? d then mret (parent, mret tt) else arm
  | None => arm
  end.

(** [logger.Error(msg, err)]. *)
Definition logger_Error (msg : string) (err : error) : Go S unit :=
  λ w, Returned tt
         {| ginCtx := ginCtx w; store := store w; clock := clock w;
            ticks := ticks w; timers := timers w;
            logged := logged w ++ [{| Message := msg; Cause := err |}];
            calls := calls w |}.

(** Runs a method of the injected service on its state and records the
    call. *)
Definition invoke {A} (call : Call) (method : S → (A * option error) * S)
  : Go S (A * option error) :=
  λ w, let '(r, s') := method (store w) in
       Returned r
         {| ginCtx := ginCtx w; store := s'; clock := clock w;
            ticks := ticks w; timers := timers w; logged := logged w;
            calls := calls w ++ [call] |}.

(** [c.MustGet(key).(dto.UserCredentialsDTO)] *)
Definition c_MustGet_UserCredentialsDTO (key : string)
  : Go S dto.UserCredentialsDTO :=
  λ w, match gin.MustGet (ginCtx w) key with
       | None => Panicked (KeyDoesNotExist key) w
       | Some (gin.VUserCredentialsDTO d) => Returned d w
       | Some _ => Panicked (InterfaceConversion "dto.UserCredentialsDTO") w
       end.

(** [c.Cookie(name)] *)
Definition c_Cookie (name : string) : Go S (string * option error) :=
  λ w, Returned (gin.Cookie (ginCtx w) name) w.

(** [c.JSON(code, obj)] *)
Definition c_JSON (code : Z) (obj : gin.H) : Go S unit :=
  λ w, Returned tt (setGinCtx (gin.JSON (ginCtx w) code obj) w).

(** [http.SetCookie(c.Writer, cookie)] *)
Definition http_SetCookie (cookie : http.Cookie) : Go S unit :=
  λ w, Returned tt (setGinCtx (gin.Writer_SetCookie (ginCtx w) cookie) w).

End Primitives.

(** ** package jwtgo/pkg/request *)

Module request.
Section SetCookies.
Context {S : Type}.

Fixpoint SetCookies (cookies : list schema.Cookie) : Go S unit :=
  match cookies with
  | [] => mret tt
  | cookieData :: rest =>
      now ← time_Now;
      let cookie :=
        {| http.Name := schema.Name cookieData;
           http.Value := schema.Value cookieData;
           http.Path := "/";
           http.Domain := EmptyString;
           http.Expires := time.Add (time.UTC now) (schema.Duration cookieData);
           http.HttpOnly := true;
           http.Secure := true;
           http.SameSite := http.SameSiteStrictMode |} in
      http_SetCookie cookie;;
      SetCookies rest
  end.

End SetCookies.
End request.

(** ** package jwtgo/internal/app/controller/http/mapper *)

Module mapper.

(** Modelled from the spec: the mapper is not part of the sources at
    hand.  By the spec the refresh token read from the cookie is wrapped
    into the refresh-token envelope [{ refreshToken }], the shape the
    session protocol expects. *)
Definition MapToUserRefreshTokenDTO (refreshToken : string)
  : dto.UserRefreshTokenDTO :=
  {| dto.RefreshToken := refreshToken |}.

End mapper.

(** ** The controller (package v1) *)

Module v1.

(** [AuthController]: the injected service.  The validator is used when
    the routes are registered, and the logger is the one of the world. *)
Record AuthController (S U : Type) : Type :=
  { authService : serviceInterface.AuthService S U }.

Arguments authService {S U} _.

Section Handlers.
Context {S U : Type}.

Definition SignUp (ac : AuthController S U) : Go S unit :=
  '(ctx, cancel) ← context_WithTimeout context.Background (100 * time.Second);
  defer cancel (
    userCredentialsDTO ← c_MustGet_UserCredentialsDTO "validatedBody";
    '(_, err) ← invoke (SignUpCall ctx userCredentialsDTO)
                  (serviceInterface.SignUp (authService ac) ctx
                     userCredentialsDTO);
    match err with
    | Some err =>
        if errors.As err (errors.Custom customErr.AlreadyExistsError) then
          c_JSON http.StatusConflict
            {[ "message" := gin.VString (errors.Error err) ]}
        else
          logger_Error "Error while authorizing: " err;;
          c_JSON http.StatusInternalServerError
            {[ "message" := gin.VString (errors.Error err) ]}
    | None =>
        c_JSON http.StatusOK
          {[ "message" := gin.VString "User successfully registered" ]}
    end).

Definition SignIn (ac : AuthController S U) : Go S unit :=
  '(ctx, cancel) ← context_WithTimeout context.Background (100 * time.Second);
  defer cancel (
    userCredentialsDTO ← c_MustGet_UserCredentialsDTO "validatedBody";
    '(userTokensDTO, err) ← invoke (SignInCall ctx userCredentialsDTO)
                  (serviceInterface.SignIn (authService ac) ctx
                     userCredentialsDTO);
    match err with
    | Some err =>
        if errors.As err (errors.Custom customErr.InvalidCredentialsError) then
          c_JSON http.StatusUnauthorized
            {[ "message" := gin.VString (errors.Error err) ]}
        else
          logger_Error "Error while registering: " err;;
          c_JSON http.StatusInternalServerError
            {[ "message" := gin.VString (errors.Error err) ]}
    | None =>
        request.SetCookies
          [ {| schema.Name := "access_token";
               schema.Value := dto.AccessToken userTokensDTO;
               schema.Duration := 7 * 24 * time.Hour |};
            {| schema.Name := "refresh_token";
               schema.Value := dto.Tokens_RefreshToken userTokensDTO;
               schema.Duration := 7 * 24 * time.Hour |} ];;
        c_JSON http.StatusOK
          {[ "message" := gin.VString "Logged in successfully" ]}
    end).

Definition Refresh (ac : AuthController S U) : Go S unit :=
  '(ctx, cancel) ← context_WithTimeout context.Background (100 * time.Second);
  defer cancel (
    '(refreshToken, err) ← c_Cookie "refresh_token";
    match err with
    | Some _ =>
        c_JSON http.StatusUnauthorized
          {[ "error" := gin.VString "Invalid refresh token" ]}
    | None =>
        let refreshTokenDTO := mapper.MapToUserRefreshTokenDTO refreshToken in
        '(userTokensDTO, err) ← invoke (RefreshCall ctx refreshTokenDTO)
                      (serviceInterface.Refresh (authService ac) ctx
                         refreshTokenDTO);
        match err with
        | Some err =>
            if errors.As err (errors.Custom customErr.InvalidTokenError)
               || errors.As err (errors.Custom customErr.ExpiredTokenError)
               || errors.As err (errors.Custom customErr.UserNotFoundError)
            then
              c_JSON http.StatusUnauthorized
                {[ "message" := gin.VString (errors.Error err) ]}
            else
              logger_Error "Error while refreshing: " err;;
              c_JSON http.StatusInternalServerError
                {[ "message" := gin.VString (errors.Error err) ]}
        | None =>
            request.SetCookies
              [ {| schema.Name := "access_token";
                   schema.Value := dto.AccessToken userTokensDTO;
                   schema.Duration := 7 * 24 * time.Hour |};
                {| schema.Name := "refresh_token";
                   schema.Value := dto.Tokens_RefreshToken userTokensDTO;
                   schema.Duration := 7 * 24 * time.Hour |} ];;
            c_JSON http.StatusOK
              {[ "message" := gin.VString "Tokens updated successfully" ]}
        end
    end).

End Handlers.
End v1.

(** ** An in-memory service, used to run the handlers on examples *)

Module fake.

(** Accounts by email (with their password), and a switch that makes the
    service answer only after the deadline of the context it is given. *)
Record Store : Type :=
  { accounts : gmap string string;
    stalled : bool }.

Definition issue (email : string) : dto.UserTokensDTO :=
  {| dto.AccessToken := "a." +:+ email;
     dto.Tokens_RefreshToken := "r." +:+ email |}.

Definition noTokens : dto.UserTokensDTO :=
  {| dto.AccessToken := EmptyString; dto.Tokens_RefreshToken := EmptyString |}.

Definition fail (k : customErr.Kind) (text : string) : error :=
  errors.MkError (errors.Custom k) text [].

Definition SignUp (ctx : context.Context) (d : dto.UserCredentialsDTO)
    (s : Store) : (string * option error) * Store :=
  if stalled s then ((EmptyString, Some context.DeadlineExceeded), s)
  else match accounts s !! dto.Email d with
       | Some _ =>
           ((EmptyString,
             Some (fail customErr.AlreadyExistsError "user already exists")), s)
       | None =>
           ((dto.Email d, None),
            {| accounts := <[dto.Email d := dto.Password d]> (accounts s);
               stalled := stalled s |})
       end.

Definition SignIn (ctx : context.Context) (d : dto.UserCredentialsDTO)
    (s : Store) : (dto.UserTokensDTO * option error) * Store :=
  if stalled s then ((noTokens, Some context.DeadlineExceeded), s)
  else match accounts s !! dto.Email d with
       | Some p =>
           if decide (p = dto.Password d) then ((issue (dto.Email d), None), s)
           else ((noTokens,
                  Some (fail customErr.InvalidCredentialsError
                          "invalid email or password")), s)
       | None =>
           ((noTokens,
             Some (fail customErr.InvalidCredentialsError
                     "invalid email or password")), s)
       end.

Definition Refresh (ctx : context.Context) (d : dto.UserRefreshTokenDTO)
    (s : Store) : (dto.UserTokensDTO * option error) * Store :=
  if stalled s then ((noTokens, Some context.DeadlineExceeded), s)
  else match dto.RefreshToken d with
       | String "r" (String "." email) =>
           match accounts s !! email with
           | Some _ => ((issue email, None), s)
           | None =>
               ((noTokens,
                 Some (fail customErr.UserNotFoundError "user not found")), s)
           end
       | String "x" _ =>
           ((noTokens,
             Some (fail customErr.ExpiredTokenError "token is expired")), s)
       | _ =>
           ((noTokens,
             Some (fail customErr.InvalidTokenError "token is malformed")), s)
       end.

Definition service : serviceInterface.AuthService Store string :=
  {| serviceInterface.SignUp := SignUp;
     serviceInterface.SignIn := SignIn;
     serviceInterface.Refresh := Refresh |}.

Definition controller : v1.AuthController Store string :=
  {| v1.authService := service |}.

(** A service whose every method fails with the given error. *)
Definition failing (e : error) : serviceInterface.AuthService Store string :=
  {| serviceInterface.SignUp := λ _ _ s, ((EmptyString, Some e), s);
     serviceInterface.SignIn := λ _ _ s, ((noTokens, Some e), s);
     serviceInterface.Refresh := λ _ _ s, ((noTokens, Some e), s) |}.

Definition failingController (e : error) : v1.AuthController Store string :=
  {| v1.authService := failing e |}.

(** A request as the validator middleware hands it over: the validated
    body under its key, the cookies of the request, nothing written. *)
Definition request (body : option dto.UserCredentialsDTO)
    (cookies : list (string * string)) : gin.Context :=
  {| gin.Keys := match body with
                 | Some d => {[ "validatedBody" := gin.VUserCredentialsDTO d ]}
                 | None => ∅
                 end;
     gin.RequestCookies := cookies;
     gin.Status := http.StatusOK;
     gin.SetCookieHeaders := [];
     gin.Body := [] |}.

Definition world (c : gin.Context) (s : Store) : World Store :=
  {| ginCtx := c; store := s;
     clock := λ n, 1000 * time.Second + Z.of_nat n * time.Millisecond;
     ticks := 0; timers := []; logged := []; calls := [] |}.

Definition alice : dto.UserCredentialsDTO :=
  {| dto.Email := "a@b.com"; dto.Password := "secret1" |}.

Definition empty : Store := {| accounts := ∅; stalled := false |}.

Definition withAlice : Store :=
  {| accounts := {[ "a@b.com" := "secret1" ]}; stalled := false |}.

End fake.

(** The world a computation ends in, whether it returned or panicked. *)
Definition finalWorld {W A} (r : Result W A) : W :=
  match r with
  | Returned _ w => w
  | Panicked _ w => w
  end.

(** ** The handlers at work on the in-memory service *)

Module example.

(** Alice signs in with her password. *)
Definition signin : World fake.Store :=
  fake.world (fake.request (Some fake.alice) []) fake.withAlice.

(** Alice signs up on an empty store. *)
Definition signup : World fake.Store :=
  fake.world (fake.request (Some fake.alice) []) fake.empty.

(** A refresh request carrying Alice's refresh token, escaped. *)
Definition refresh : World fake.Store :=
  fake.world (fake.request None [("refresh_token", "r.a%40b.com")])
    fake.withAlice.

(** A refresh request whose token is not one the service issued. *)
Definition refreshGarbage : World fake.Store :=
  fake.world (fake.request None [("refresh_token", "garbage")])
    fake.withAlice.

(** A refresh request without the cookie. *)
Definition refreshNoCookie : World fake.Store :=
  fake.world (fake.request None [("session", "1")]) fake.withAlice.

Definition stalledStore : fake.Store :=
  {| fake.accounts := {[ "a@b.com" := "secret1" ]}; fake.stalled := true |}.

(** The same three requests against a service that does not answer in
    time. *)
Definition stalledBody : World fake.Store :=
  fake.world (fake.request (Some fake.alice) []) stalledStore.

Definition stalledRefresh : World fake.Store :=
  fake.world (fake.request None [("refresh_token", "r.a%40b.com")])
    stalledStore.

Definition aliceTokens : dto.UserTokensDTO := fake.issue "a@b.com".

(** Alice signs in with a wrong password. *)
Definition signinWrongPassword : World fake.Store :=
  fake.world
    (fake.request
       (Some {| dto.Email := "a@b.com"; dto.Password := "wrong-pw" |}) [])
    fake.withAlice.

(** An account whose tokens hold a semicolon, and its sign-in. *)
Definition semicolon : dto.UserCredentialsDTO :=
  {| dto.Email := "x;y"; dto.Password := "secret1" |}.

Definition withSemicolon : fake.Store :=
  {| fake.accounts := {[ "x;y" := "secret1" ]}; fake.stalled := false |}.

Definition signinSemicolon : World fake.Store :=
  fake.world (fake.request (Some semicolon) []) withSemicolon.

(** A refresh request whose cookie cannot be unescaped, against the
    service that does not answer in time. *)
Definition refreshUnreadable : World fake.Store :=
  fake.world (fake.request None [("refresh_token", "%zz")]) stalledStore.

End example.

(** * Properties *)

Section Runs.
Context {S U : Type}.
Implicit Types (ac : v1.AuthController S U) (w : World S).

(** The context a handler entered in world [w] hands to the service:
    its deadline is the reading of the clock at the start of the call
    plus one hundred seconds. *)
Definition opCtx (w : World S) : context.Context :=
  {| context.Deadline :=
       Some (time.Add (clock w (ticks w)) (100 * time.Second)) |}.

(** The world after a handler that entered in [w]: the context of the
    request is now [c] and the state of the service [s]; [n] readings of
    the clock were taken, [lg] was logged and the calls [cl] were made.
    The timer of the handler is released. *)
Definition after (w : World S) (c : gin.Context) (s : S) (n : nat)
    (lg : list LogEntry) (cl : list Call) : World S :=
  {| ginCtx := c; store := s; clock := clock w;
     ticks := (n + ticks w)%nat; timers := timers w;
     logged := logged w ++ lg; calls := calls w ++ cl |}.

(** The context of a request after an answer: status [code], the
    [cookies] added to the [Set-Cookie] headers, [obj] written to the
    body. *)
Definition answered (c : gin.Context) (code : Z) (cookies : list http.Cookie)
    (obj : gin.H) : gin.Context :=
  {| gin.Keys := gin.Keys c;
     gin.RequestCookies := gin.RequestCookies c;
     gin.Status := code;
     gin.SetCookieHeaders := gin.SetCookieHeaders c ++ cookies;
     gin.Body := gin.Body c ++ [obj] |}.

(** The cookie the transport policy prescribes for a token read at
    instant [issued]. *)
Definition tokenCookie (name value : string) (issued : time.Time)
  : http.Cookie :=
  {| http.Name := name;
     http.Value := value;
     http.Path := "/";
     http.Domain := EmptyString;
     http.Expires := issued + 7 * 24 * time.Hour;
     http.HttpOnly := true;
     http.Secure := true;
     http.SameSite := http.SameSiteStrictMode |}.

(** The failure kinds that [Refresh] answers with 401. *)
Definition refreshRejected (e : error) : bool :=
  errors.As e (errors.Custom customErr.InvalidTokenError)
  || errors.As e (errors.Custom customErr.ExpiredTokenError)
  || errors.As e (errors.Custom customErr.UserNotFoundError).

Definition message (s : string) : gin.H := {[ "message" := gin.VString s ]}.

(** The [Set-Cookie] headers a handler added are either none or the
    pair of a token pair. *)
Definition noneOrPair (before after : list http.Cookie) : Prop :=
  after = before ∨
  ∃ tok t1 t2,
    after = before ++
      [ tokenCookie "access_token" (dto.AccessToken tok) t1;
        tokenCookie "refresh_token" (dto.Tokens_RefreshToken tok) t2 ].

End Runs.

(** ** Reading [request.SetCookies] as a function on lists *)

(** The cookie [request.SetCookies] builds for the directive [d] when the
    clock reads [now]. *)
Definition cookieOf (d : schema.Cookie) (now : time.Time) : http.Cookie :=
  {| http.Name := schema.Name d;
     http.Value := schema.Value d;
     http.Path := "/";
     http.Domain := EmptyString;
     http.Expires := now + schema.Duration d;
     http.HttpOnly := true;
     http.Secure := true;
     http.SameSite := http.SameSiteStrictMode |}.

(** The directive has a name [net/http] accepts. *)
Definition validName (d : schema.Cookie) : bool :=
  http.isCookieNameValid (schema.Name d).

(** The headers added for the directives [l] when the readings of the
    clock are [clock n], [clock (n+1)], ... *)
Fixpoint emitted (clock : nat → time.Time) (n : nat) (l : list schema.Cookie)
  : list http.Cookie :=
  match l with
  | [] => []
  | d :: r =>
      (if validName d then [cookieOf d (clock n)] else [])
      ++ emitted clock (Datatypes.S n) r
  end.

(** The attributes that do not depend on the directive. *)
Definition fixedPolicy (k : http.Cookie) : Prop :=
  http.Path k = "/" ∧ http.Domain k = EmptyString ∧
  http.HttpOnly k = true ∧ http.Secure k = true ∧
  http.SameSite k = http.SameSiteStrictMode.

(** What a run of a handler wrote to the body: one document when it
    returned, nothing when it panicked. *)
Definition wroteOnce {S A} (w : World S) (r : Result (World S) A) : Prop :=
  match r with
  | Returned _ w' => ∃ obj, gin.Body (ginCtx w') = gin.Body (ginCtx w) ++ [obj]
  | Panicked _ w' => gin.Body (ginCtx w') = gin.Body (ginCtx w)
  end.

(** The status a run left: one of [codes] when it returned, the status
    it found when it panicked. *)
Definition statusAmong {S A} (codes : list Z) (w : World S)
    (r : Result (World S) A) : Prop :=
  match r with
  | Returned _ w' => gin.Status (ginCtx w') ∈ codes
  | Panicked _ w' => gin.Status (ginCtx w') = gin.Status (ginCtx w)
  end.

(** A run logged nothing, or it logged one error, answered 500 and sent
    the text of that very error. *)
Definition loggedOnlyInternal {S} (w w' : World S) : Prop :=
  logged w' = logged w
  ∨ ∃ msg e,
      logged w' = logged w ++ [{| Message := msg; Cause := e |}] ∧
      gin.Status (ginCtx w') = http.StatusInternalServerError ∧
      gin.Body (ginCtx w') = gin.Body (ginCtx w) ++ [message (errors.Error e)].

(** Every byte of [v] satisfies [p]. *)
Fixpoint allBytes (p : ascii → bool) (v : string) : bool :=
  match v with
  | EmptyString => true
  | String c r => p c && allBytes p r
  end.

(** A value [net/http] writes as it is: valid bytes only, no space and
    no comma. *)
Definition cleanCookieValue (v : string) : bool :=
  allBytes (λ c, http.validCookieValueByte c
                 && negb (bool_decide (c = " "%char))
                 && negb (bool_decide (c = ","%char))) v.

(** A cookie value unescaping leaves as it is: no percent sign and no
    plus sign. *)
Definition plainQuery (v : string) : bool :=
  allBytes (λ c, negb (bool_decide (c = "%"%char))
                 && negb (bool_decide (c = "+"%char))) v.

(** A run set the two token cookies and answered 200, or it set no
    cookie and, if it returned, answered with another status. *)
Definition cookiesIffOK {S A} (w : World S) (r : Result (World S) A) : Prop :=
  match r with
  | Returned _ w' =>
      (gin.Status (ginCtx w') = http.StatusOK ∧
       ∃ a b, gin.SetCookieHeaders (ginCtx w')
              = gin.SetCookieHeaders (ginCtx w) ++ [a; b])
      ∨ (gin.Status (ginCtx w') ≠ http.StatusOK ∧
         gin.SetCookieHeaders (ginCtx w') = gin.SetCookieHeaders (ginCtx w))
  | Panicked _ w' =>
      gin.SetCookieHeaders (ginCtx w') = gin.SetCookieHeaders (ginCtx w)
  end.

Lemma disarm_head (d : time.Time) (l : list time.Time) :
  disarm d (d :: l) = l.
Proof. simpl. by rewrite decide_True. Qed.

(** [errors.As] looks through the wrapping of [fmt.Errorf]. *)
Lemma As_Wrapf (prefix : string) (e : error) (k : customErr.Kind) :
  errors.As (errors.Wrapf prefix e) (errors.Custom k)
  = errors.As e (errors.Custom k).
Proof. destruct e. cbn. by rewrite orb_false_r. Qed.

(** [c.Cookie] fails exactly when the request has no cookie of that
    name. *)
Lemma Cookie_fails_iff_absent (c : gin.Context) (name : string) :
  name ≠ EmptyString →
  snd (gin.Cookie c name) ≠ None
  ↔ http.Request_Cookie (gin.RequestCookies c) name = None.
Proof.
  intros Hname. unfold gin.Cookie. destruct name; [done|].
  destruct (http.Request_Cookie _ _); cbn; split; congruence.
Qed.

(** A value without percent and plus signs is its own unescaping. *)
Lemma QueryUnescape_plain (v : string) :
  plainQuery v = true → url.QueryUnescape v = (v, None).
Proof.
  intros H.
  assert (url.wellEscaped v = true ∧ url.decode v = v) as [Hw Hd].
  { induction v as [|c r IH]; [done|].
    cbn in H. apply andb_prop in H as [Hc Hr].
    destruct (IH Hr) as [IHw IHd].
    destruct c as [[] [] [] [] [] [] [] []];
      try (vm_compute in Hc; discriminate);
      cbn; rewrite ?IHw, ?IHd; done. }
  unfold url.QueryUnescape. by rewrite Hw, Hd.
Qed.

(** A value of valid bytes without space and comma is written as it
    is. *)
Lemma sanitizeCookieValue_clean (v : string) :
  cleanCookieValue v = true → http.sanitizeCookieValue v = v.
Proof.
  intros H.
  assert (http.sanitizeOrWarn http.validCookieValueByte v = v
          ∧ http.ContainsAny v [" "%char; ","%char] = false) as [Hs Hc].
  { induction v as [|c r IH]; [done|].
    cbn in H. apply andb_prop in H as [Hc Hr].
    destruct (IH Hr) as [IHs IHc]. cbn. rewrite IHs, IHc.
    destruct (http.validCookieValueByte c), (bool_decide (c = " "%char)),
      (bool_decide (c = ","%char)); done. }
  unfold http.sanitizeCookieValue. rewrite Hs, Hc. by destruct v.
Qed.

(** What [net/http] writes for some values: a semicolon is dropped, a
    value with a space is put between double quotes, a token of valid
    bytes is kept. *)
Lemma sanitizeCookieValue_examples :
  http.sanitizeCookieValue "a;b" = "ab"
  ∧ http.sanitizeCookieValue "a b"
    = String http.doubleQuote ("a b" +:+ String http.doubleQuote EmptyString)
  ∧ http.sanitizeCookieValue EmptyString = EmptyString
  ∧ http.sanitizeCookieValue "eyJhbGciOi.J9-_x=" = "eyJhbGciOi.J9-_x=".
Proof. repeat split. Qed.

Lemma access_token_name_valid : http.isCookieNameValid "access_token" = true.
Proof. vm_compute. reflexivity. Qed.

Lemma refresh_token_name_valid : http.isCookieNameValid "refresh_token" = true.
Proof. vm_compute. reflexivity. Qed.

(** [request.SetCookies] on the two directives of a token pair: two
    readings of the clock, two headers, access first. *)
Lemma SetCookies_token_pair {S} (w : World S) (tok : dto.UserTokensDTO) :
  request.SetCookies
    [ {| schema.Name := "access_token";
         schema.Value := dto.AccessToken tok;
         schema.Duration := 7 * 24 * time.Hour |};
      {| schema.Name := "refresh_token";
         schema.Value := dto.Tokens_RefreshToken tok;
         schema.Duration := 7 * 24 * time.Hour |} ] w
  = Returned tt
      {| ginCtx :=
           {| gin.Keys := gin.Keys (ginCtx w);
              gin.RequestCookies := gin.RequestCookies (ginCtx w);
              gin.Status := gin.Status (ginCtx w);
              gin.SetCookieHeaders :=
                gin.SetCookieHeaders (ginCtx w) ++
                [ tokenCookie "access_token" (dto.AccessToken tok)
                    (clock w (ticks w));
                  tokenCookie "refresh_token" (dto.Tokens_RefreshToken tok)
                    (clock w (Datatypes.S (ticks w))) ];
              gin.Body := gin.Body (ginCtx w) |};
         store := store w; clock := clock w;
         ticks := Datatypes.S (Datatypes.S (ticks w));
         timers := timers w; logged := logged w; calls := calls w |}.
Proof.
  unfold request.SetCookies, mbind, mret, Go_bind, Go_ret, time_Now,
    http_SetCookie, setGinCtx, gin.Writer_SetCookie, http.SetCookie.
  cbv beta iota zeta delta [http.Name schema.Name ginCtx gin.SetCookieHeaders].
  rewrite access_token_name_valid, refresh_token_name_valid.
  cbn. rewrite <- app_assoc. reflexivity.
Qed.

Arguments request.SetCookies : simpl never.

(** Unfolds the primitives of the execution model in a run. *)
Ltac step_go :=
  unfold context_WithTimeout, defer, mbind, mret, Go_bind, Go_ret, time_Now,
    c_MustGet_UserCredentialsDTO, c_Cookie, c_JSON, logger_Error, invoke,
    setTimers, setGinCtx, opCtx in *;
  cbn in *.

(** Closes a run whose branch is known: the timer armed on entry is the
    one released on exit. *)
Ltac finish_go :=
  rewrite ?SetCookies_token_pair;
  unfold after, answered, message, gin.JSON; step_go;
  rewrite ?decide_True by done; rewrite ?app_nil_r; reflexivity.

(** Splits the conjunctions of the goal, leaving implications alone. *)
Ltac split_all := repeat match goal with |- _ ∧ _ => split end.

Section RunLemmas.
Context {S U : Type}.
Implicit Types (ac : v1.AuthController S U) (w : World S).

Lemma SignUp_run ac w creds u err s' :
  gin.MustGet (ginCtx w) "validatedBody" = Some (gin.VUserCredentialsDTO creds) →
  serviceInterface.SignUp (v1.authService ac) (opCtx w) creds (store w)
    = ((u, err), s') →
  v1.SignUp ac w =
    Returned tt
      match err with
      | None =>
          after w (answered (ginCtx w) http.StatusOK []
                     (message "User successfully registered"))
            s' 1 [] [SignUpCall (opCtx w) creds]
      | Some e =>
          if errors.As e (errors.Custom customErr.AlreadyExistsError) then
            after w (answered (ginCtx w) http.StatusConflict []
                       (message (errors.Error e)))
              s' 1 [] [SignUpCall (opCtx w) creds]
          else
            after w (answered (ginCtx w) http.StatusInternalServerError []
                       (message (errors.Error e)))
              s' 1 [{| Message := "Error while authorizing: "; Cause := e |}]
              [SignUpCall (opCtx w) creds]
      end.
Proof.
  intros Hkey Hsvc. unfold v1.SignUp. step_go.
  rewrite Hkey; cbn. rewrite Hsvc; cbn.
  destruct err as [e|]; [destruct (errors.As e _)|]; finish_go.
Qed.

Lemma SignIn_run ac w creds tok err s' :
  gin.MustGet (ginCtx w) "validatedBody" = Some (gin.VUserCredentialsDTO creds) →
  serviceInterface.SignIn (v1.authService ac) (opCtx w) creds (store w)
    = ((tok, err), s') →
  v1.SignIn ac w =
    Returned tt
      match err with
      | None =>
          after w
            (answered (ginCtx w) http.StatusOK
               [ tokenCookie "access_token" (dto.AccessToken tok)
                   (clock w (1 + ticks w)%nat);
                 tokenCookie "refresh_token" (dto.Tokens_RefreshToken tok)
                   (clock w (2 + ticks w)%nat) ]
               (message "Logged in successfully"))
            s' 3 [] [SignInCall (opCtx w) creds]
      | Some e =>
          if errors.As e (errors.Custom customErr.InvalidCredentialsError) then
            after w (answered (ginCtx w) http.StatusUnauthorized []
                       (message (errors.Error e)))
              s' 1 [] [SignInCall (opCtx w) creds]
          else
            after w (answered (ginCtx w) http.StatusInternalServerError []
                       (message (errors.Error e)))
              s' 1 [{| Message := "Error while registering: "; Cause := e |}]
              [SignInCall (opCtx w) creds]
      end.
Proof.
  intros Hkey Hsvc. unfold v1.SignIn. step_go.
  rewrite Hkey; cbn. rewrite Hsvc; cbn.
  destruct err as [e|]; [destruct (errors.As e _)|]; finish_go.
Qed.

Lemma Refresh_run_guard ac w rt e :
  gin.Cookie (ginCtx w) "refresh_token" = (rt, Some e) →
  v1.Refresh ac w =
    Returned tt
      (after w
         (answered (ginCtx w) http.StatusUnauthorized []
            {[ "error" := gin.VString "Invalid refresh token" ]})
         (store w) 1 [] []).
Proof.
  intros Hcookie. unfold v1.Refresh. step_go.
  rewrite Hcookie; cbn. finish_go.
Qed.

Lemma Refresh_run ac w rt tok err s' :
  gin.Cookie (ginCtx w) "refresh_token" = (rt, None) →
  serviceInterface.Refresh (v1.authService ac) (opCtx w)
    (mapper.MapToUserRefreshTokenDTO rt) (store w) = ((tok, err), s') →
  v1.Refresh ac w =
    Returned tt
      match err with
      | None =>
          after w
            (answered (ginCtx w) http.StatusOK
               [ tokenCookie "access_token" (dto.AccessToken tok)
                   (clock w (1 + ticks w)%nat);
                 tokenCookie "refresh_token" (dto.Tokens_RefreshToken tok)
                   (clock w (2 + ticks w)%nat) ]
               (message "Tokens updated successfully"))
            s' 3 [] [RefreshCall (opCtx w) (mapper.MapToUserRefreshTokenDTO rt)]
      | Some e =>
          if refreshRejected e then
            after w (answered (ginCtx w) http.StatusUnauthorized []
                       (message (errors.Error e)))
              s' 1 [] [RefreshCall (opCtx w) (mapper.MapToUserRefreshTokenDTO rt)]
          else
            after w (answered (ginCtx w) http.StatusInternalServerError []
                       (message (errors.Error e)))
              s' 1 [{| Message := "Error while refreshing: "; Cause := e |}]
              [RefreshCall (opCtx w) (mapper.MapToUserRefreshTokenDTO rt)]
      end.
Proof.
  intros Hcookie Hsvc. unfold v1.Refresh. step_go.
  rewrite Hcookie; cbn. rewrite Hsvc; cbn.
  destruct err as [e|]; [unfold refreshRejected; destruct (_ || _)|];
    finish_go.
Qed.

(** Without a validated body of the expected type, [SignUp] and [SignIn]
    panic before they call the service or write anything. *)
Lemma SignUp_panics ac w :
  (∀ creds, gin.MustGet (ginCtx w) "validatedBody"
            ≠ Some (gin.VUserCredentialsDTO creds)) →
  ∃ p, v1.SignUp ac w = Panicked p (after w (ginCtx w) (store w) 1 [] []).
Proof.
  intros Hkey. unfold v1.SignUp. step_go.
  destruct (gin.MustGet (ginCtx w) "validatedBody") as [[?|d|?]|] eqn:E;
    try (by destruct (Hkey d)); cbn; eexists; finish_go.
Qed.

Lemma SignIn_panics ac w :
  (∀ creds, gin.MustGet (ginCtx w) "validatedBody"
            ≠ Some (gin.VUserCredentialsDTO creds)) →
  ∃ p, v1.SignIn ac w = Panicked p (after w (ginCtx w) (store w) 1 [] []).
Proof.
  intros Hkey. unfold v1.SignIn. step_go.
  destruct (gin.MustGet (ginCtx w) "validatedBody") as [[?|d|?]|] eqn:E;
    try (by destruct (Hkey d)); cbn; eexists; finish_go.
Qed.

End RunLemmas.

(** ** What the caller receives, and what the service sees *)

Section Claims.
Context {S U : Type}.
Implicit Types (ac : v1.AuthController S U) (w : World S).

Lemma validatedBody_cases w :
  (∃ creds, gin.MustGet (ginCtx w) "validatedBody"
            = Some (gin.VUserCredentialsDTO creds))
  ∨ (∀ creds, gin.MustGet (ginCtx w) "validatedBody"
              ≠ Some (gin.VUserCredentialsDTO creds)).
Proof.
  destruct (gin.MustGet (ginCtx w) "validatedBody") as [[?|d|?]|];
    [right|left; by exists d|right|right]; done.
Qed.

Lemma SignUp_noneOrPair ac w :
  noneOrPair (gin.SetCookieHeaders (ginCtx w))
    (gin.SetCookieHeaders (ginCtx (finalWorld (v1.SignUp ac w)))).
Proof.
  destruct (validatedBody_cases w) as [[creds Hkey]|Hkey].
  - destruct (serviceInterface.SignUp (v1.authService ac) (opCtx w) creds
                (store w)) as [[u err] s'] eqn:Hsvc.
    rewrite (SignUp_run ac w creds u err s' Hkey Hsvc).
    left. destruct err as [e|]; [destruct (errors.As e _)|]; cbn;
      apply app_nil_r.
  - destruct (SignUp_panics ac w Hkey) as [p ->]. by left.
Qed.

Lemma SignIn_noneOrPair ac w :
  noneOrPair (gin.SetCookieHeaders (ginCtx w))
    (gin.SetCookieHeaders (ginCtx (finalWorld (v1.SignIn ac w)))).
Proof.
  destruct (validatedBody_cases w) as [[creds Hkey]|Hkey].
  - destruct (serviceInterface.SignIn (v1.authService ac) (opCtx w) creds
                (store w)) as [[tok err] s'] eqn:Hsvc.
    rewrite (SignIn_run ac w creds tok err s' Hkey Hsvc).
    destruct err as [e|]; [destruct (errors.As e _)|]; cbn;
      [left; apply app_nil_r..|right; eauto].
  - destruct (SignIn_panics ac w Hkey) as [p ->]. by left.
Qed.

Lemma Refresh_noneOrPair ac w :
  noneOrPair (gin.SetCookieHeaders (ginCtx w))
    (gin.SetCookieHeaders (ginCtx (finalWorld (v1.Refresh ac w)))).
Proof.
  destruct (gin.Cookie (ginCtx w) "refresh_token") as [rt [e|]] eqn:Hcookie.
  - rewrite (Refresh_run_guard ac w rt e Hcookie). left. apply app_nil_r.
  - destruct (serviceInterface.Refresh (v1.authService ac) (opCtx w)
                (mapper.MapToUserRefreshTokenDTO rt) (store w))
      as [[tok err] s'] eqn:Hsvc.
    rewrite (Refresh_run ac w rt tok err s' Hcookie Hsvc).
    destruct err as [e|]; [destruct (refreshRejected e)|]; cbn;
      [left; apply app_nil_r..|right; eauto].
Qed.

(** C1.  A successful [SignIn] or [Refresh] adds exactly two cookies to
    the response, [access_token] first and [refresh_token] second, each
    expiring 7 x 24 hours after the instant it was built, with path [/],
    no domain, http-only, secure and same-site strict; and whatever
    happens, a handler adds either no cookie or this pair. *)
Theorem C1_token_pair_as_two_cookies ac w :
  (∀ creds tok s',
     gin.MustGet (ginCtx w) "validatedBody"
       = Some (gin.VUserCredentialsDTO creds) →
     serviceInterface.SignIn (v1.authService ac) (opCtx w) creds (store w)
       = ((tok, None), s') →
     ∃ w', v1.SignIn ac w = Returned tt w' ∧
       gin.SetCookieHeaders (ginCtx w') =
         gin.SetCookieHeaders (ginCtx w) ++
           [ tokenCookie "access_token" (dto.AccessToken tok)
               (clock w (1 + ticks w)%nat);
             tokenCookie "refresh_token" (dto.Tokens_RefreshToken tok)
               (clock w (2 + ticks w)%nat) ])
  ∧ (∀ rt tok s',
     gin.Cookie (ginCtx w) "refresh_token" = (rt, None) →
     serviceInterface.Refresh (v1.authService ac) (opCtx w)
       (mapper.MapToUserRefreshTokenDTO rt) (store w) = ((tok, None), s') →
     ∃ w', v1.Refresh ac w = Returned tt w' ∧
       gin.SetCookieHeaders (ginCtx w') =
         gin.SetCookieHeaders (ginCtx w) ++
           [ tokenCookie "access_token" (dto.AccessToken tok)
               (clock w (1 + ticks w)%nat);
             tokenCookie "refresh_token" (dto.Tokens_RefreshToken tok)
               (clock w (2 + ticks w)%nat) ])
  ∧ noneOrPair (gin.SetCookieHeaders (ginCtx w))
      (gin.SetCookieHeaders (ginCtx (finalWorld (v1.SignUp ac w))))
  ∧ noneOrPair (gin.SetCookieHeaders (ginCtx w))
      (gin.SetCookieHeaders (ginCtx (finalWorld (v1.SignIn ac w))))
  ∧ noneOrPair (gin.SetCookieHeaders (ginCtx w))
      (gin.SetCookieHeaders (ginCtx (finalWorld (v1.Refresh ac w)))).
Proof.
  split; [|split; [|split; [|split]]].
  - intros creds tok s' Hkey Hsvc.
    rewrite (SignIn_run ac w creds tok None s' Hkey Hsvc). eauto.
  - intros rt tok s' Hcookie Hsvc.
    rewrite (Refresh_run ac w rt tok None s' Hcookie Hsvc). eauto.
  - apply SignUp_noneOrPair.
  - apply SignIn_noneOrPair.
  - apply Refresh_noneOrPair.
Qed.

(** C2, as the code has it.  When the request has no [refresh_token]
    cookie, [Refresh] answers 401 and the service is not called: no call
    is recorded, its state is untouched, and the run is the same whatever
    service was injected.  The guard looks at nothing else: a cookie that
    is there reaches the service, whatever its value. *)
Theorem C2_absent_cookie_stops_before_service ac w :
  http.Request_Cookie (gin.RequestCookies (ginCtx w)) "refresh_token" = None →
  ∃ w', v1.Refresh ac w = Returned tt w' ∧
    gin.Status (ginCtx w') = http.StatusUnauthorized ∧
    calls w' = calls w ∧
    store w' = store w ∧
    ∀ ac' : v1.AuthController S U, v1.Refresh ac' w = v1.Refresh ac w.
Proof.
  intros Habsent.
  assert (Hcookie : gin.Cookie (ginCtx w) "refresh_token"
                    = (EmptyString, Some http.ErrNoCookie))
    by (unfold gin.Cookie; by rewrite Habsent).
  rewrite (Refresh_run_guard ac w _ _ Hcookie).
  eexists; split; [reflexivity|]. cbn. rewrite app_nil_r.
  split_all; try done. intros ac'. apply (Refresh_run_guard ac' w _ _ Hcookie).
Qed.

(** C3, as the code has it.  When the service fails in [Refresh], a
    failure of kind [InvalidToken], [ExpiredToken] or [UserNotFound] is
    answered 401 and any other failure 500; in both cases the body is the
    message object holding the text of the error, and no cookie is set.
    The kind of a rejected refresh reaches the caller through that text
    only: the same text gives the same response. *)
Theorem C3_refresh_failure_classified ac w rt tok e s' :
  gin.Cookie (ginCtx w) "refresh_token" = (rt, None) →
  serviceInterface.Refresh (v1.authService ac) (opCtx w)
    (mapper.MapToUserRefreshTokenDTO rt) (store w) = ((tok, Some e), s') →
  ∃ w', v1.Refresh ac w = Returned tt w' ∧
    (errors.As e (errors.Custom customErr.InvalidTokenError) = true
     ∨ errors.As e (errors.Custom customErr.ExpiredTokenError) = true
     ∨ errors.As e (errors.Custom customErr.UserNotFoundError) = true →
     ginCtx w' = answered (ginCtx w) http.StatusUnauthorized []
                   (message (errors.Error e)))
    ∧ (errors.As e (errors.Custom customErr.InvalidTokenError) = false →
       errors.As e (errors.Custom customErr.ExpiredTokenError) = false →
       errors.As e (errors.Custom customErr.UserNotFoundError) = false →
       ginCtx w' = answered (ginCtx w) http.StatusInternalServerError []
                     (message (errors.Error e))).
Proof.
  intros Hcookie Hsvc.
  rewrite (Refresh_run ac w rt tok (Some e) s' Hcookie Hsvc).
  eexists; split; [reflexivity|]. unfold refreshRejected. split.
  - intros [H|[H|H]]; rewrite H, ?orb_true_r; reflexivity.
  - intros -> -> ->. reflexivity.
Qed.

(** C4, as the code has it.  A failure that matches none of the kinds an
    operation names is answered 500 with the message object holding the
    text of the error, and is logged with the error itself.  The body
    depends on the failure through its text only. *)
Theorem C4_unclassified_failure_is_internal ac w :
  (∀ creds u e s',
     gin.MustGet (ginCtx w) "validatedBody"
       = Some (gin.VUserCredentialsDTO creds) →
     serviceInterface.SignUp (v1.authService ac) (opCtx w) creds (store w)
       = ((u, Some e), s') →
     errors.As e (errors.Custom customErr.AlreadyExistsError) = false →
     ∃ w', v1.SignUp ac w = Returned tt w' ∧
       ginCtx w' = answered (ginCtx w) http.StatusInternalServerError []
                     (message (errors.Error e)) ∧
       logged w' = logged w ++
         [{| Message := "Error while authorizing: "; Cause := e |}])
  ∧ (∀ creds tok e s',
     gin.MustGet (ginCtx w) "validatedBody"
       = Some (gin.VUserCredentialsDTO creds) →
     serviceInterface.SignIn (v1.authService ac) (opCtx w) creds (store w)
       = ((tok, Some e), s') →
     errors.As e (errors.Custom customErr.InvalidCredentialsError) = false →
     ∃ w', v1.SignIn ac w = Returned tt w' ∧
       ginCtx w' = answered (ginCtx w) http.StatusInternalServerError []
                     (message (errors.Error e)) ∧
       logged w' = logged w ++
         [{| Message := "Error while registering: "; Cause := e |}])
  ∧ (∀ rt tok e s',
     gin.Cookie (ginCtx w) "refresh_token" = (rt, None) →
     serviceInterface.Refresh (v1.authService ac) (opCtx w)
       (mapper.MapToUserRefreshTokenDTO rt) (store w) = ((tok, Some e), s') →
     refreshRejected e = false →
     ∃ w', v1.Refresh ac w = Returned tt w' ∧
       ginCtx w' = answered (ginCtx w) http.StatusInternalServerError []
                     (message (errors.Error e)) ∧
       logged w' = logged w ++
         [{| Message := "Error while refreshing: "; Cause := e |}]).
Proof.
  split; [|split].
  - intros creds u e s' Hkey Hsvc Hkind.
    rewrite (SignUp_run ac w creds u (Some e) s' Hkey Hsvc), Hkind. eauto.
  - intros creds tok e s' Hkey Hsvc Hkind.
    rewrite (SignIn_run ac w creds tok (Some e) s' Hkey Hsvc), Hkind. eauto.
  - intros rt tok e s' Hcookie Hsvc Hkind.
    rewrite (Refresh_run ac w rt tok (Some e) s' Hcookie Hsvc), Hkind. eauto.
Qed.

(** C5.  [SignUp] answers 200 with a message object and no cookie when
    the service succeeds, 409 when it fails with [AlreadyExists], and 500
    when it fails in any other way. *)
Theorem C5_signup_status ac w creds u err s' :
  gin.MustGet (ginCtx w) "validatedBody"
    = Some (gin.VUserCredentialsDTO creds) →
  serviceInterface.SignUp (v1.authService ac) (opCtx w) creds (store w)
    = ((u, err), s') →
  ∃ w', v1.SignUp ac w = Returned tt w' ∧
    gin.SetCookieHeaders (ginCtx w') = gin.SetCookieHeaders (ginCtx w) ∧
    match err with
    | None =>
        gin.Status (ginCtx w') = http.StatusOK ∧
        ∃ text, gin.Body (ginCtx w') = gin.Body (ginCtx w) ++ [message text]
    | Some e =>
        if errors.As e (errors.Custom customErr.AlreadyExistsError)
        then gin.Status (ginCtx w') = http.StatusConflict
        else gin.Status (ginCtx w') = http.StatusInternalServerError
    end.
Proof.
  intros Hkey Hsvc. rewrite (SignUp_run ac w creds u err s' Hkey Hsvc).
  eexists; split; [reflexivity|].
  destruct err as [e|]; [destruct (errors.As e _)|]; cbn;
    rewrite app_nil_r; eauto.
Qed.

(** C6.  [SignIn] answers 401 without any cookie when the service fails
    with [InvalidCredentials], 500 without any cookie when it fails in
    any other way, and 200 with the two token cookies when it
    succeeds. *)
Theorem C6_signin_status_and_cookies ac w creds tok err s' :
  gin.MustGet (ginCtx w) "validatedBody"
    = Some (gin.VUserCredentialsDTO creds) →
  serviceInterface.SignIn (v1.authService ac) (opCtx w) creds (store w)
    = ((tok, err), s') →
  ∃ w', v1.SignIn ac w = Returned tt w' ∧
    match err with
    | None =>
        gin.Status (ginCtx w') = http.StatusOK ∧
        gin.SetCookieHeaders (ginCtx w') =
          gin.SetCookieHeaders (ginCtx w) ++
            [ tokenCookie "access_token" (dto.AccessToken tok)
                (clock w (1 + ticks w)%nat);
              tokenCookie "refresh_token" (dto.Tokens_RefreshToken tok)
                (clock w (2 + ticks w)%nat) ]
    | Some e =>
        gin.SetCookieHeaders (ginCtx w') = gin.SetCookieHeaders (ginCtx w) ∧
        if errors.As e (errors.Custom customErr.InvalidCredentialsError)
        then gin.Status (ginCtx w') = http.StatusUnauthorized
        else gin.Status (ginCtx w') = http.StatusInternalServerError
    end.
Proof.
  intros Hkey Hsvc. rewrite (SignIn_run ac w creds tok err s' Hkey Hsvc).
  eexists; split; [reflexivity|].
  destruct err as [e|]; [destruct (errors.As e _)|]; cbn;
    rewrite ?app_nil_r; eauto.
Qed.

(** C7.  A successful [SignUp] answers 200 with the body
    [{ message: User successfully registered }] and sets no cookie; the
    account reference [u] the service returned appears nowhere in the
    world the handler leaves. *)
Theorem C7_signup_success_returns_no_token ac w creds u s' :
  gin.MustGet (ginCtx w) "validatedBody"
    = Some (gin.VUserCredentialsDTO creds) →
  serviceInterface.SignUp (v1.authService ac) (opCtx w) creds (store w)
    = ((u, None), s') →
  ∃ w', v1.SignUp ac w = Returned tt w' ∧
    gin.Status (ginCtx w') = http.StatusOK ∧
    gin.Body (ginCtx w') = gin.Body (ginCtx w) ++
      [ {[ "message" := gin.VString "User successfully registered" ]} ] ∧
    gin.SetCookieHeaders (ginCtx w') = gin.SetCookieHeaders (ginCtx w) ∧
    w' = after w
           (answered (ginCtx w) http.StatusOK []
              (message "User successfully registered"))
           s' 1 [] [SignUpCall (opCtx w) creds].
Proof.
  intros Hkey Hsvc. rewrite (SignUp_run ac w creds u None s' Hkey Hsvc).
  eexists; split; [reflexivity|]. cbn. rewrite app_nil_r. done.
Qed.

(** A message object has the single field [message], holding a string. *)
Lemma message_single_field (text : string) :
  dom (message text) = ({[ "message" ]} : gset string)
  ∧ message text !! "message" = Some (gin.VString text).
Proof.
  unfold message. split; [apply dom_singleton_L|apply lookup_singleton_eq].
Qed.

(** Whenever the service fails, the body the handler writes is the
    message object holding the text of the error. *)
Lemma service_failure_body_is_message ac w :
  (∀ creds u e s',
     gin.MustGet (ginCtx w) "validatedBody"
       = Some (gin.VUserCredentialsDTO creds) →
     serviceInterface.SignUp (v1.authService ac) (opCtx w) creds (store w)
       = ((u, Some e), s') →
     gin.Body (ginCtx (finalWorld (v1.SignUp ac w)))
       = gin.Body (ginCtx w) ++ [message (errors.Error e)])
  ∧ (∀ creds tok e s',
     gin.MustGet (ginCtx w) "validatedBody"
       = Some (gin.VUserCredentialsDTO creds) →
     serviceInterface.SignIn (v1.authService ac) (opCtx w) creds (store w)
       = ((tok, Some e), s') →
     gin.Body (ginCtx (finalWorld (v1.SignIn ac w)))
       = gin.Body (ginCtx w) ++ [message (errors.Error e)])
  ∧ (∀ rt tok e s',
     gin.Cookie (ginCtx w) "refresh_token" = (rt, None) →
     serviceInterface.Refresh (v1.authService ac) (opCtx w)
       (mapper.MapToUserRefreshTokenDTO rt) (store w) = ((tok, Some e), s') →
     gin.Body (ginCtx (finalWorld (v1.Refresh ac w)))
       = gin.Body (ginCtx w) ++ [message (errors.Error e)]).
Proof.
  split_all.
  - intros creds u e s' Hkey Hsvc.
    rewrite (SignUp_run ac w creds u (Some e) s' Hkey Hsvc).
    by destruct (errors.As e _).
  - intros creds tok e s' Hkey Hsvc.
    rewrite (SignIn_run ac w creds tok (Some e) s' Hkey Hsvc).
    by destruct (errors.As e _).
  - intros rt tok e s' Hcookie Hsvc.
    rewrite (Refresh_run ac w rt tok (Some e) s' Hcookie Hsvc).
    by destruct (refreshRejected e).
Qed.

(** The cancellation error matches none of the failure kinds. *)
Lemma DeadlineExceeded_unclassified (k : customErr.Kind) :
  errors.As context.DeadlineExceeded (errors.Custom k) = false.
Proof. reflexivity. Qed.

(** C8.  Each handler hands the service a context whose deadline is the
    instant of the call plus 100 seconds, and has released the timer of
    that context when it returns.  When the service answers with the
    cancellation error of the context, the response is 500 and carries no
    cookie. *)
Theorem C8_deadline_and_cancellation ac w :
  (∀ creds u err s',
     gin.MustGet (ginCtx w) "validatedBody"
       = Some (gin.VUserCredentialsDTO creds) →
     serviceInterface.SignUp (v1.authService ac) (opCtx w) creds (store w)
       = ((u, err), s') →
     ∃ w' ctx, v1.SignUp ac w = Returned tt w' ∧
       calls w' = calls w ++ [SignUpCall ctx creds] ∧
       context.Deadline ctx
         = Some (clock w (ticks w) + 100 * time.Second) ∧
       timers w' = timers w ∧
       (err = Some context.DeadlineExceeded →
        gin.Status (ginCtx w') = http.StatusInternalServerError ∧
        gin.SetCookieHeaders (ginCtx w') = gin.SetCookieHeaders (ginCtx w)))
  ∧ (∀ creds tok err s',
     gin.MustGet (ginCtx w) "validatedBody"
       = Some (gin.VUserCredentialsDTO creds) →
     serviceInterface.SignIn (v1.authService ac) (opCtx w) creds (store w)
       = ((tok, err), s') →
     ∃ w' ctx, v1.SignIn ac w = Returned tt w' ∧
       calls w' = calls w ++ [SignInCall ctx creds] ∧
       context.Deadline ctx
         = Some (clock w (ticks w) + 100 * time.Second) ∧
       timers w' = timers w ∧
       (err = Some context.DeadlineExceeded →
        gin.Status (ginCtx w') = http.StatusInternalServerError ∧
        gin.SetCookieHeaders (ginCtx w') = gin.SetCookieHeaders (ginCtx w)))
  ∧ (∀ rt tok err s',
     gin.Cookie (ginCtx w) "refresh_token" = (rt, None) →
     serviceInterface.Refresh (v1.authService ac) (opCtx w)
       (mapper.MapToUserRefreshTokenDTO rt) (store w) = ((tok, err), s') →
     ∃ w' ctx, v1.Refresh ac w = Returned tt w' ∧
       calls w' = calls w
         ++ [RefreshCall ctx (mapper.MapToUserRefreshTokenDTO rt)] ∧
       context.Deadline ctx
         = Some (clock w (ticks w) + 100 * time.Second) ∧
       timers w' = timers w ∧
       (err = Some context.DeadlineExceeded →
        gin.Status (ginCtx w') = http.StatusInternalServerError ∧
        gin.SetCookieHeaders (ginCtx w') = gin.SetCookieHeaders (ginCtx w))).
Proof.
  split; [|split].
  - intros creds u err s' Hkey Hsvc.
    rewrite (SignUp_run ac w creds u err s' Hkey Hsvc).
    eexists; exists (opCtx w); split; [reflexivity|].
    destruct err as [e|]; [destruct (errors.As e _) eqn:Has|];
      split_all; try reflexivity; intros Herr; simplify_eq; cbn in *;
      rewrite ?app_nil_r; done.
  - intros creds tok err s' Hkey Hsvc.
    rewrite (SignIn_run ac w creds tok err s' Hkey Hsvc).
    eexists; exists (opCtx w); split; [reflexivity|].
    destruct err as [e|]; [destruct (errors.As e _) eqn:Has|];
      split_all; try reflexivity; intros Herr; simplify_eq; cbn in *;
      rewrite ?app_nil_r; done.
  - intros rt tok err s' Hcookie Hsvc.
    rewrite (Refresh_run ac w rt tok err s' Hcookie Hsvc).
    eexists; exists (opCtx w); split; [reflexivity|].
    destruct err as [e|]; [destruct (refreshRejected e) eqn:Has|];
      split_all; try reflexivity; intros Herr; simplify_eq; cbn in *;
      rewrite ?app_nil_r; done.
Qed.

(** C10, as the code has it.  The two cookies a successful [SignIn] or
    [Refresh] hands to [net/http] hold the access token and the refresh
    token the service returned; what is written for each is that token
    as [net/http] sanitises it, which is the token itself when it has
    valid bytes only and neither space nor comma.  The envelope [Refresh]
    hands to the service holds the value of the [refresh_token] cookie
    unescaped, which is the value itself when it has neither percent nor
    plus sign. *)
Theorem C10_cookie_values_and_envelope_as_written ac w :
  (∀ creds tok s',
     gin.MustGet (ginCtx w) "validatedBody"
       = Some (gin.VUserCredentialsDTO creds) →
     serviceInterface.SignIn (v1.authService ac) (opCtx w) creds (store w)
       = ((tok, None), s') →
     ∃ w' a r, v1.SignIn ac w = Returned tt w' ∧
       gin.SetCookieHeaders (ginCtx w')
         = gin.SetCookieHeaders (ginCtx w) ++ [a; r] ∧
       http.Name a = "access_token" ∧
       http.Value a = dto.AccessToken tok ∧
       http.writtenValue a = http.sanitizeCookieValue (dto.AccessToken tok) ∧
       (cleanCookieValue (dto.AccessToken tok) = true →
        http.writtenValue a = dto.AccessToken tok) ∧
       http.Name r = "refresh_token" ∧
       http.Value r = dto.Tokens_RefreshToken tok ∧
       http.writtenValue r
         = http.sanitizeCookieValue (dto.Tokens_RefreshToken tok) ∧
       (cleanCookieValue (dto.Tokens_RefreshToken tok) = true →
        http.writtenValue r = dto.Tokens_RefreshToken tok))
  ∧ (∀ v tok err s',
     http.Request_Cookie (gin.RequestCookies (ginCtx w)) "refresh_token"
       = Some v →
     serviceInterface.Refresh (v1.authService ac) (opCtx w)
       {| dto.RefreshToken := fst (url.QueryUnescape v) |} (store w)
       = ((tok, err), s') →
     ∃ w' ctx, v1.Refresh ac w = Returned tt w' ∧
       calls w' = calls w
         ++ [RefreshCall ctx {| dto.RefreshToken := fst (url.QueryUnescape v) |}] ∧
       (plainQuery v = true →
        calls w' = calls w ++ [RefreshCall ctx {| dto.RefreshToken := v |}]) ∧
       store w' = s' ∧
       (err = None →
        ∃ a r,
          gin.SetCookieHeaders (ginCtx w')
            = gin.SetCookieHeaders (ginCtx w) ++ [a; r] ∧
          http.Name a = "access_token" ∧
          http.Value a = dto.AccessToken tok ∧
          http.writtenValue a
            = http.sanitizeCookieValue (dto.AccessToken tok) ∧
          (cleanCookieValue (dto.AccessToken tok) = true →
           http.writtenValue a = dto.AccessToken tok) ∧
          http.Name r = "refresh_token" ∧
          http.Value r = dto.Tokens_RefreshToken tok ∧
          http.writtenValue r
            = http.sanitizeCookieValue (dto.Tokens_RefreshToken tok) ∧
          (cleanCookieValue (dto.Tokens_RefreshToken tok) = true →
           http.writtenValue r = dto.Tokens_RefreshToken tok))).
Proof.
  split.
  - intros creds tok s' Hkey Hsvc.
    rewrite (SignIn_run ac w creds tok None s' Hkey Hsvc).
    do 3 eexists. split; [reflexivity|]. cbn.
    split_all; try done; apply sanitizeCookieValue_clean.
  - intros v tok err s' Hv Hsvc.
    assert (Hcookie : gin.Cookie (ginCtx w) "refresh_token"
                      = (fst (url.QueryUnescape v), None))
      by (unfold gin.Cookie; by rewrite Hv).
    rewrite (Refresh_run ac w _ tok err s' Hcookie Hsvc).
    eexists; exists (opCtx w); split; [reflexivity|].
    assert (Hplain : plainQuery v = true → fst (url.QueryUnescape v) = v)
      by (intros Hp; by rewrite (QueryUnescape_plain v Hp)).
    destruct err as [e|]; [destruct (refreshRejected e)|]; cbn;
      split_all; try done;
      try (intros Hp; unfold mapper.MapToUserRefreshTokenDTO;
           by rewrite (Hplain Hp)).
    intros _. do 2 eexists. cbn.
    split_all; try done; apply sanitizeCookieValue_clean.
Qed.

End Claims.

(** C9, at the guard of [Refresh].  A refresh request without the
    [refresh_token] cookie is answered 401 with the body
    [{ error: Invalid refresh token }]: its single field is named
    [error], so the body is no message object, while every other failure
    path of the three handlers writes a [message] field. *)
Theorem C9_guard_body_is_not_a_message_object :
  let c' := ginCtx (finalWorld
                      (v1.Refresh fake.controller example.refreshNoCookie)) in
  gin.Status c' = http.StatusUnauthorized ∧
  gin.Body c' = [ {[ "error" := gin.VString "Invalid refresh token" ]} ] ∧
  (∀ obj, obj ∈ gin.Body c' → obj !! "message" = None) ∧
  (∀ text, gin.Body c' ≠ [ message text ]).
Proof.
  assert (Hbody : gin.Body (ginCtx (finalWorld
              (v1.Refresh fake.controller example.refreshNoCookie)))
            = [ {[ "error" := gin.VString "Invalid refresh token" ]} ])
    by (vm_compute; reflexivity).
  cbv zeta. rewrite Hbody. split_all.
  - vm_compute; reflexivity.
  - reflexivity.
  - intros obj ->%list_elem_of_singleton. vm_compute; reflexivity.
  - intros text H.
    assert (H' := f_equal (λ l, l !! 0%nat ≫= (.!! "message")) H).
    vm_compute in H'. discriminate.
Qed.

(** C1 on Alice's sign-in and on her refresh. *)
Lemma C1_witness :
  (∃ w', v1.SignIn fake.controller example.signin = Returned tt w' ∧
     gin.SetCookieHeaders (ginCtx w') =
       gin.SetCookieHeaders (ginCtx example.signin) ++
         [ tokenCookie "access_token" "a.a@b.com"
             (clock example.signin 1%nat);
           tokenCookie "refresh_token" "r.a@b.com"
             (clock example.signin 2%nat) ])
  ∧ (∃ w', v1.Refresh fake.controller example.refresh = Returned tt w' ∧
     gin.SetCookieHeaders (ginCtx w') =
       gin.SetCookieHeaders (ginCtx example.refresh) ++
         [ tokenCookie "access_token" "a.a@b.com"
             (clock example.refresh 1%nat);
           tokenCookie "refresh_token" "r.a@b.com"
             (clock example.refresh 2%nat) ]).
Proof.
  split.
  - destruct (C1_token_pair_as_two_cookies fake.controller example.signin)
      as [H _].
    apply (H fake.alice example.aliceTokens fake.withAlice);
      vm_compute; reflexivity.
  - destruct (C1_token_pair_as_two_cookies fake.controller example.refresh)
      as (_ & H & _).
    apply (H "r.a@b.com" example.aliceTokens fake.withAlice);
      vm_compute; reflexivity.
Defined.

(** C2 on a refresh request without the cookie. *)
Lemma C2_witness :
  http.Request_Cookie (gin.RequestCookies (ginCtx example.refreshNoCookie))
    "refresh_token" = None
  ∧ ∃ w', v1.Refresh fake.controller example.refreshNoCookie = Returned tt w' ∧
      gin.Status (ginCtx w') = http.StatusUnauthorized ∧
      calls w' = calls example.refreshNoCookie ∧
      store w' = store example.refreshNoCookie ∧
      ∀ ac' : v1.AuthController fake.Store string,
        v1.Refresh ac' example.refreshNoCookie
        = v1.Refresh fake.controller example.refreshNoCookie.
Proof.
  split; [vm_compute; reflexivity|].
  apply (C2_absent_cookie_stops_before_service fake.controller
           example.refreshNoCookie).
  vm_compute; reflexivity.
Defined.

(** Against C2 as the specification words it: a [refresh_token] cookie
    that cannot be unescaped does not stop [Refresh] at the guard.  The
    service is called, with the empty string, and here, as it does not
    answer in time, the answer is 500 and not 401. *)
Lemma C2_counterexample :
  let w := example.refreshUnreadable in
  let w' := finalWorld (v1.Refresh fake.controller w) in
  http.Request_Cookie (gin.RequestCookies (ginCtx w)) "refresh_token"
    = Some "%zz" ∧
  url.QueryUnescape "%zz" = (EmptyString, Some url.EscapeError) ∧
  calls w'
    = calls w ++ [RefreshCall (opCtx w) {| dto.RefreshToken := EmptyString |}] ∧
  calls w' ≠ calls w ∧
  gin.Status (ginCtx w') = http.StatusInternalServerError ∧
  gin.Status (ginCtx w') ≠ http.StatusUnauthorized.
Proof.
  cbv zeta. split_all; try (vm_compute; reflexivity).
  - intros H. vm_compute in H. discriminate.
  - intros H. vm_compute in H. discriminate.
Qed.

(** C3 on a refresh token the service rejects as malformed. *)
Lemma C3_witness :
  ∃ w', v1.Refresh fake.controller example.refreshGarbage = Returned tt w' ∧
    ginCtx w' = answered (ginCtx example.refreshGarbage)
                  http.StatusUnauthorized [] (message "token is malformed").
Proof.
  destruct (C3_refresh_failure_classified fake.controller
              example.refreshGarbage "garbage" fake.noTokens
              (fake.fail customErr.InvalidTokenError "token is malformed")
              fake.withAlice)
    as (w' & Hrun & H401 & _); [vm_compute; reflexivity..|].
  exists w'. split; [exact Hrun|]. apply H401. left. reflexivity.
Defined.

(** Against C3 as the specification words it: a malformed token and a
    token of a deleted account are both answered 401, but with different
    bodies, so the caller can tell the two kinds apart. *)
Lemma C3_counterexample :
  let e1 := fake.fail customErr.InvalidTokenError "token is malformed" in
  let e2 := fake.fail customErr.UserNotFoundError "user not found" in
  let r1 := ginCtx (finalWorld (v1.Refresh (fake.failingController e1)
                                  example.refresh)) in
  let r2 := ginCtx (finalWorld (v1.Refresh (fake.failingController e2)
                                  example.refresh)) in
  errors.As e1 (errors.Custom customErr.InvalidTokenError) = true ∧
  errors.As e2 (errors.Custom customErr.UserNotFoundError) = true ∧
  gin.Status r1 = http.StatusUnauthorized ∧
  gin.Status r2 = http.StatusUnauthorized ∧
  gin.Body r1 = [ message "token is malformed" ] ∧
  gin.Body r2 = [ message "user not found" ] ∧
  gin.Body r1 ≠ gin.Body r2.
Proof.
  cbv zeta. split_all; try (vm_compute; reflexivity).
  intros H.
  assert (H' := f_equal (λ l, l !! 0%nat ≫= (.!! "message")) H).
  vm_compute in H'. discriminate.
Qed.

(** C4 on a service whose store is unreachable. *)
Lemma C4_witness :
  let e := errors.New "dial tcp 10.0.0.5:5432: connect: connection refused" in
  (∃ w', v1.SignUp (fake.failingController e) example.signup = Returned tt w' ∧
     ginCtx w' = answered (ginCtx example.signup)
                   http.StatusInternalServerError []
                   (message (errors.Error e)) ∧
     logged w' = logged example.signup ++
       [{| Message := "Error while authorizing: "; Cause := e |}])
  ∧ (∃ w', v1.SignIn (fake.failingController e) example.signin = Returned tt w' ∧
     ginCtx w' = answered (ginCtx example.signin)
                   http.StatusInternalServerError []
                   (message (errors.Error e)) ∧
     logged w' = logged example.signin ++
       [{| Message := "Error while registering: "; Cause := e |}])
  ∧ (∃ w', v1.Refresh (fake.failingController e) example.refresh = Returned tt w' ∧
     ginCtx w' = answered (ginCtx example.refresh)
                   http.StatusInternalServerError []
                   (message (errors.Error e)) ∧
     logged w' = logged example.refresh ++
       [{| Message := "Error while refreshing: "; Cause := e |}]).
Proof.
  intros e. split_all.
  - destruct (C4_unclassified_failure_is_internal (fake.failingController e)
                example.signup) as (H & _ & _).
    apply (H fake.alice EmptyString e fake.empty); vm_compute; reflexivity.
  - destruct (C4_unclassified_failure_is_internal (fake.failingController e)
                example.signin) as (_ & H & _).
    apply (H fake.alice fake.noTokens e fake.withAlice);
      vm_compute; reflexivity.
  - destruct (C4_unclassified_failure_is_internal (fake.failingController e)
                example.refresh) as (_ & _ & H).
    apply (H "r.a@b.com" fake.noTokens e fake.withAlice);
      vm_compute; reflexivity.
Defined.

(** Against C4 as the specification words it: two sign-ups that fail
    with different unclassified errors are both answered 500, but each
    body carries the text of its own error. *)
Lemma C4_counterexample :
  let e1 := errors.New "dial tcp 10.0.0.5:5432: connect: connection refused" in
  let e2 := errors.New "pq: password authentication failed for user jwtgo" in
  let r1 := ginCtx (finalWorld (v1.SignUp (fake.failingController e1)
                                  example.signup)) in
  let r2 := ginCtx (finalWorld (v1.SignUp (fake.failingController e2)
                                  example.signup)) in
  errors.As e1 (errors.Custom customErr.AlreadyExistsError) = false ∧
  errors.As e2 (errors.Custom customErr.AlreadyExistsError) = false ∧
  gin.Status r1 = http.StatusInternalServerError ∧
  gin.Status r2 = http.StatusInternalServerError ∧
  gin.Body r1
    = [ message "dial tcp 10.0.0.5:5432: connect: connection refused" ] ∧
  gin.Body r2
    = [ message "pq: password authentication failed for user jwtgo" ] ∧
  gin.Body r1 ≠ gin.Body r2.
Proof.
  cbv zeta. split_all; try (vm_compute; reflexivity).
  intros H.
  assert (H' := f_equal (λ l, l !! 0%nat ≫= (.!! "message")) H).
  vm_compute in H'. discriminate.
Qed.

(** C5 on a first sign-up (200) and on a repeated one (409). *)
Lemma C5_witness :
  (∃ w', v1.SignUp fake.controller example.signup = Returned tt w' ∧
     gin.SetCookieHeaders (ginCtx w')
       = gin.SetCookieHeaders (ginCtx example.signup) ∧
     gin.Status (ginCtx w') = http.StatusOK ∧
     ∃ text, gin.Body (ginCtx w')
             = gin.Body (ginCtx example.signup) ++ [message text])
  ∧ (∃ w', v1.SignUp fake.controller example.signin = Returned tt w' ∧
     gin.SetCookieHeaders (ginCtx w')
       = gin.SetCookieHeaders (ginCtx example.signin) ∧
     gin.Status (ginCtx w') = http.StatusConflict).
Proof.
  split.
  - apply (C5_signup_status fake.controller example.signup fake.alice
             "a@b.com" None fake.withAlice); vm_compute; reflexivity.
  - apply (C5_signup_status fake.controller example.signin fake.alice
             EmptyString
             (Some (fake.fail customErr.AlreadyExistsError
                      "user already exists"))
             fake.withAlice); vm_compute; reflexivity.
Defined.

(** C6 on a sign-in with the right password (200 and the two cookies),
    on a sign-in with a wrong password (401, no cookie) and on a sign-in
    the service does not answer in time (500, no cookie). *)
Lemma C6_witness :
  (∃ w', v1.SignIn fake.controller example.signin = Returned tt w' ∧
     gin.Status (ginCtx w') = http.StatusOK ∧
     gin.SetCookieHeaders (ginCtx w') =
       gin.SetCookieHeaders (ginCtx example.signin) ++
         [ tokenCookie "access_token" "a.a@b.com" (clock example.signin 1%nat);
           tokenCookie "refresh_token" "r.a@b.com"
             (clock example.signin 2%nat) ])
  ∧ (errors.As (fake.fail customErr.InvalidCredentialsError
                  "invalid email or password")
       (errors.Custom customErr.InvalidCredentialsError) = true
     ∧ ∃ w', v1.SignIn fake.controller example.signinWrongPassword
             = Returned tt w' ∧
         gin.SetCookieHeaders (ginCtx w')
           = gin.SetCookieHeaders (ginCtx example.signinWrongPassword) ∧
         gin.Status (ginCtx w') = http.StatusUnauthorized)
  ∧ (errors.As context.DeadlineExceeded
       (errors.Custom customErr.InvalidCredentialsError) = false
     ∧ ∃ w', v1.SignIn fake.controller example.stalledBody = Returned tt w' ∧
         gin.SetCookieHeaders (ginCtx w')
           = gin.SetCookieHeaders (ginCtx example.stalledBody) ∧
         gin.Status (ginCtx w') = http.StatusInternalServerError).
Proof.
  split_all; try reflexivity.
  - apply (C6_signin_status_and_cookies fake.controller example.signin
             fake.alice example.aliceTokens None fake.withAlice);
      vm_compute; reflexivity.
  - apply (C6_signin_status_and_cookies fake.controller
             example.signinWrongPassword
             {| dto.Email := "a@b.com"; dto.Password := "wrong-pw" |}
             fake.noTokens
             (Some (fake.fail customErr.InvalidCredentialsError
                      "invalid email or password"))
             fake.withAlice); vm_compute; reflexivity.
  - apply (C6_signin_status_and_cookies fake.controller example.stalledBody
             fake.alice fake.noTokens (Some context.DeadlineExceeded)
             example.stalledStore); vm_compute; reflexivity.
Defined.

(** C7 on a first sign-up. *)
Lemma C7_witness :
  ∃ w', v1.SignUp fake.controller example.signup = Returned tt w' ∧
    gin.Status (ginCtx w') = http.StatusOK ∧
    gin.Body (ginCtx w') = gin.Body (ginCtx example.signup) ++
      [ {[ "message" := gin.VString "User successfully registered" ]} ] ∧
    gin.SetCookieHeaders (ginCtx w')
      = gin.SetCookieHeaders (ginCtx example.signup) ∧
    w' = after example.signup
           (answered (ginCtx example.signup) http.StatusOK []
              (message "User successfully registered"))
           fake.withAlice 1 [] [SignUpCall (opCtx example.signup) fake.alice].
Proof.
  apply (C7_signup_success_returns_no_token fake.controller example.signup
           fake.alice "a@b.com" fake.withAlice); vm_compute; reflexivity.
Defined.

(** C8 on a service that answers only after the deadline. *)
Lemma C8_witness :
  (∃ w' ctx, v1.SignUp fake.controller example.stalledBody = Returned tt w' ∧
     calls w' = calls example.stalledBody ++ [SignUpCall ctx fake.alice] ∧
     context.Deadline ctx
       = Some (clock example.stalledBody 0%nat + 100 * time.Second) ∧
     timers w' = timers example.stalledBody ∧
     gin.Status (ginCtx w') = http.StatusInternalServerError ∧
     gin.SetCookieHeaders (ginCtx w')
       = gin.SetCookieHeaders (ginCtx example.stalledBody))
  ∧ (∃ w' ctx, v1.SignIn fake.controller example.stalledBody = Returned tt w' ∧
     calls w' = calls example.stalledBody ++ [SignInCall ctx fake.alice] ∧
     context.Deadline ctx
       = Some (clock example.stalledBody 0%nat + 100 * time.Second) ∧
     timers w' = timers example.stalledBody ∧
     gin.Status (ginCtx w') = http.StatusInternalServerError ∧
     gin.SetCookieHeaders (ginCtx w')
       = gin.SetCookieHeaders (ginCtx example.stalledBody))
  ∧ (∃ w' ctx, v1.Refresh fake.controller example.stalledRefresh
               = Returned tt w' ∧
     calls w' = calls example.stalledRefresh
       ++ [RefreshCall ctx {| dto.RefreshToken := "r.a@b.com" |}] ∧
     context.Deadline ctx
       = Some (clock example.stalledRefresh 0%nat + 100 * time.Second) ∧
     timers w' = timers example.stalledRefresh ∧
     gin.Status (ginCtx w') = http.StatusInternalServerError ∧
     gin.SetCookieHeaders (ginCtx w')
       = gin.SetCookieHeaders (ginCtx example.stalledRefresh)).
Proof.
  split_all.
  - destruct (C8_deadline_and_cancellation fake.controller
                example.stalledBody) as (H & _ & _).
    destruct (H fake.alice EmptyString (Some context.DeadlineExceeded)
                example.stalledStore)
      as (w' & ctx & Hrun & Hcalls & Hctx & Htimers & Hlate);
      [vm_compute; reflexivity..|].
    exists w', ctx. destruct (Hlate eq_refl). done.
  - destruct (C8_deadline_and_cancellation fake.controller
                example.stalledBody) as (_ & H & _).
    destruct (H fake.alice fake.noTokens (Some context.DeadlineExceeded)
                example.stalledStore)
      as (w' & ctx & Hrun & Hcalls & Hctx & Htimers & Hlate);
      [vm_compute; reflexivity..|].
    exists w', ctx. destruct (Hlate eq_refl). done.
  - destruct (C8_deadline_and_cancellation fake.controller
                example.stalledRefresh) as (_ & _ & H).
    destruct (H "r.a@b.com" fake.noTokens (Some context.DeadlineExceeded)
                example.stalledStore)
      as (w' & ctx & Hrun & Hcalls & Hctx & Htimers & Hlate);
      [vm_compute; reflexivity..|].
    exists w', ctx. destruct (Hlate eq_refl). done.
Defined.

(** C10 on Alice's sign-in, whose tokens are written as they are, and
    on her refresh, whose cookie arrives escaped. *)
Lemma C10_witness :
  (cleanCookieValue "a.a@b.com" = true ∧ cleanCookieValue "r.a@b.com" = true
   ∧ ∃ w' a r, v1.SignIn fake.controller example.signin = Returned tt w' ∧
     gin.SetCookieHeaders (ginCtx w')
       = gin.SetCookieHeaders (ginCtx example.signin) ++ [a; r] ∧
     http.Name a = "access_token" ∧
     http.writtenValue a = "a.a@b.com" ∧
     http.Name r = "refresh_token" ∧
     http.writtenValue r = "r.a@b.com")
  ∧ (http.Request_Cookie (gin.RequestCookies (ginCtx example.refresh))
       "refresh_token" = Some "r.a%40b.com"
     ∧ ∃ w' ctx, v1.Refresh fake.controller example.refresh = Returned tt w' ∧
         calls w' = calls example.refresh
           ++ [RefreshCall ctx {| dto.RefreshToken := "r.a@b.com" |}] ∧
         store w' = fake.withAlice ∧
         ∃ a r,
           gin.SetCookieHeaders (ginCtx w')
             = gin.SetCookieHeaders (ginCtx example.refresh) ++ [a; r] ∧
           http.Name a = "access_token" ∧
           http.writtenValue a = "a.a@b.com" ∧
           http.Name r = "refresh_token" ∧
           http.writtenValue r = "r.a@b.com")
  ∧ (plainQuery "garbage" = true
     ∧ ∃ w' ctx, v1.Refresh fake.controller example.refreshGarbage
                 = Returned tt w' ∧
         calls w' = calls example.refreshGarbage
           ++ [RefreshCall ctx {| dto.RefreshToken := "garbage" |}]).
Proof.
  split_all; try reflexivity.
  - destruct (C10_cookie_values_and_envelope_as_written fake.controller
                example.signin) as [H _].
    destruct (H fake.alice example.aliceTokens fake.withAlice)
      as (w' & a & r & Hrun & Hhdr & Hna & _ & _ & Hwa & Hnr & _ & _ & Hwr);
      [vm_compute; reflexivity..|].
    exists w', a, r. split_all; try done; [apply Hwa|apply Hwr]; reflexivity.
  - destruct (C10_cookie_values_and_envelope_as_written fake.controller
                example.refresh) as [_ H].
    destruct (H "r.a%40b.com" example.aliceTokens None fake.withAlice)
      as (w' & ctx & Hrun & Hcalls & _ & Hstore & Hok);
      [vm_compute; reflexivity..|].
    destruct (Hok eq_refl)
      as (a & r & Hhdr & Hna & _ & _ & Hwa & Hnr & _ & _ & Hwr).
    exists w', ctx. split_all; try done.
    exists a, r. split_all; try done; [apply Hwa|apply Hwr]; reflexivity.
  - destruct (C10_cookie_values_and_envelope_as_written fake.controller
                example.refreshGarbage) as [_ H].
    destruct (H "garbage" fake.noTokens
                (Some (fake.fail customErr.InvalidTokenError
                         "token is malformed"))
                fake.withAlice)
      as (w' & ctx & Hrun & _ & Hplain & _);
      [vm_compute; reflexivity..|].
    exists w', ctx. split; [exact Hrun|]. apply Hplain. reflexivity.
Defined.

(** Against C10 as the specification words it.  The service returns the
    access token [a.x;y]; the value written for the [access_token] cookie
    is [a.xy], the semicolon being dropped.  And the [refresh_token]
    cookie [r.a%40b.com] reaches the service as [r.a@b.com]. *)
Lemma C10_counterexample :
  let w := example.signinSemicolon in
  let w' := finalWorld (v1.SignIn fake.controller w) in
  let u := example.refresh in
  let u' := finalWorld (v1.Refresh fake.controller u) in
  fake.SignIn (opCtx w) example.semicolon (store w)
    = (({| dto.AccessToken := "a.x;y"; dto.Tokens_RefreshToken := "r.x;y" |},
        None), store w) ∧
  map http.Name (gin.SetCookieHeaders (ginCtx w'))
    = ["access_token"; "refresh_token"] ∧
  map http.writtenValue (gin.SetCookieHeaders (ginCtx w'))
    = ["a.xy"; "r.xy"] ∧
  "a.xy" ≠ "a.x;y" ∧
  http.Request_Cookie (gin.RequestCookies (ginCtx u)) "refresh_token"
    = Some "r.a%40b.com" ∧
  calls u' = [RefreshCall (opCtx u) {| dto.RefreshToken := "r.a@b.com" |}] ∧
  "r.a@b.com" ≠ "r.a%40b.com".
Proof.
  cbv zeta. split_all; try (vm_compute; reflexivity); discriminate.
Qed.

(** * More on [request.SetCookies] *)

Lemma SetCookies_cons {S} (d : schema.Cookie) (r : list schema.Cookie)
    (w : World S) :
  request.SetCookies (d :: r) w =
  request.SetCookies r
    {| ginCtx := gin.Writer_SetCookie (ginCtx w) (cookieOf d (clock w (ticks w)));
       store := store w; clock := clock w;
       ticks := Datatypes.S (ticks w); timers := timers w;
       logged := logged w; calls := calls w |}.
Proof. reflexivity. Qed.

(** The whole effect of [request.SetCookies]. *)
Lemma SetCookies_run {S} (l : list schema.Cookie) (w : World S) :
  request.SetCookies l w =
  Returned tt
    {| ginCtx :=
         {| gin.Keys := gin.Keys (ginCtx w);
            gin.RequestCookies := gin.RequestCookies (ginCtx w);
            gin.Status := gin.Status (ginCtx w);
            gin.SetCookieHeaders :=
              gin.SetCookieHeaders (ginCtx w)
              ++ emitted (clock w) (ticks w) l;
            gin.Body := gin.Body (ginCtx w) |};
       store := store w; clock := clock w;
       ticks := (length l + ticks w)%nat; timers := timers w;
       logged := logged w; calls := calls w |}.
Proof.
  revert w. induction l as [|d r IH]; intros w.
  - destruct w as [[] ? ? ? ? ? ?]. cbn. by rewrite app_nil_r.
  - rewrite SetCookies_cons, IH.
    unfold gin.Writer_SetCookie, http.SetCookie. cbn.
    change (http.isCookieNameValid (schema.Name d)) with (validName d).
    rewrite Nat.add_succ_r.
    destruct (validName d); cbn; by rewrite <- ?app_assoc.
Qed.

Lemma emitted_policy (clock : nat → time.Time) (n : nat)
    (l : list schema.Cookie) :
  Forall fixedPolicy (emitted clock n l).
Proof.
  revert n. induction l as [|d r IH]; intros n; cbn; [constructor|].
  destruct (validName d); cbn; [constructor|]; [by repeat split|..]; apply IH.
Qed.

Lemma emitted_names_written_values (clock : nat → time.Time) (n : nat)
    (l : list schema.Cookie) :
  map (λ k, (http.Name k, http.writtenValue k)) (emitted clock n l)
  = map (λ d, (schema.Name d, http.sanitizeCookieValue (schema.Value d)))
      (List.filter validName l).
Proof.
  revert n. induction l as [|d r IH]; intros n; cbn; [done|].
  destruct (validName d); cbn; by rewrite IH.
Qed.

(** The second written for an instant is at most one second before
    it. *)
Lemma whole_second (t : time.Time) :
  t / time.Second * time.Second ≤ t < t / time.Second * time.Second + time.Second.
Proof.
  change time.Second with 1000000000.
  pose proof (Z.div_mod t 1000000000 ltac:(done)).
  pose proof (Z.mod_pos_bound t 1000000000 ltac:(done)). lia.
Qed.

Lemma emitted_lookup (clock : nat → time.Time) (n i : nat)
    (l : list schema.Cookie) (d : schema.Cookie) :
  Forall (λ d, validName d = true) l →
  l !! i = Some d →
  emitted clock n l !! i = Some (cookieOf d (clock (n + i)%nat)).
Proof.
  intros Hvalid. revert n i.
  induction Hvalid as [|d0 r Hd0 _ IH]; intros n i Hi; [done|].
  cbn. rewrite Hd0. destruct i as [|i]; cbn in *.
  - simplify_eq. by rewrite Nat.add_0_r.
  - rewrite Nat.add_succ_r. by apply (IH (Datatypes.S n)).
Qed.

(** X1.  [request.SetCookies] always returns.  It reads the clock once
    per directive and touches nothing but the [Set-Cookie] headers:
    status, body, keys and request cookies, the state of the service, the
    log, the calls and the timers are as before. *)
Theorem X1_SetCookies_touches_only_headers {S} (l : list schema.Cookie)
    (w : World S) :
  ∃ w', request.SetCookies l w = Returned tt w' ∧
    ticks w' = (length l + ticks w)%nat ∧
    gin.Status (ginCtx w') = gin.Status (ginCtx w) ∧
    gin.Body (ginCtx w') = gin.Body (ginCtx w) ∧
    gin.Keys (ginCtx w') = gin.Keys (ginCtx w) ∧
    gin.RequestCookies (ginCtx w') = gin.RequestCookies (ginCtx w) ∧
    store w' = store w ∧ clock w' = clock w ∧ timers w' = timers w ∧
    logged w' = logged w ∧ calls w' = calls w.
Proof. rewrite SetCookies_run. eexists. split; [reflexivity|]. done. Qed.

(** X2.  [request.SetCookies] keeps the headers already set and only
    appends; every cookie it appends has path [/], no domain, and is
    http-only, secure and same-site strict, whatever the directives. *)
Theorem X2_SetCookies_fixed_policy {S} (l : list schema.Cookie)
    (w : World S) :
  ∃ w' added, request.SetCookies l w = Returned tt w' ∧
    gin.SetCookieHeaders (ginCtx w')
      = gin.SetCookieHeaders (ginCtx w) ++ added ∧
    Forall fixedPolicy added.
Proof.
  rewrite SetCookies_run. do 2 eexists. split; [reflexivity|].
  split; [reflexivity|]. apply emitted_policy.
Qed.

(** X3.  The cookies [request.SetCookies] appends are, in the order of
    the directives, one per directive whose name is a valid cookie name,
    with the name of that directive; the value written for each is the
    value of the directive as [net/http] sanitises it (invalid bytes
    dropped, quotes around a value with a space or a comma).  A directive
    with an invalid name (empty, or with a character that is not a token
    character) is skipped, and equal names are not merged. *)
Theorem X3_SetCookies_names_and_written_values {S} (l : list schema.Cookie)
    (w : World S) :
  ∃ w' added, request.SetCookies l w = Returned tt w' ∧
    gin.SetCookieHeaders (ginCtx w')
      = gin.SetCookieHeaders (ginCtx w) ++ added ∧
    map (λ k, (http.Name k, http.writtenValue k)) added
      = map (λ d, (schema.Name d, http.sanitizeCookieValue (schema.Value d)))
          (List.filter validName l).
Proof.
  rewrite SetCookies_run. do 2 eexists. split; [reflexivity|].
  split; [reflexivity|]. apply emitted_names_written_values.
Qed.

(** X4.  When every directive has a valid name, the expiry written for
    the directive at position [i] is the whole second of the instant [t]
    that lies the duration of that directive after the reading of the
    clock taken for it, the [i]-th reading since the call: at most one
    second before [t], never after it.  No expiry is written when [t]
    lies before the year 1601. *)
Theorem X4_SetCookies_written_expiry {S} (l : list schema.Cookie)
    (w : World S) (i : nat) (d : schema.Cookie) :
  Forall (λ d, validName d = true) l →
  l !! i = Some d →
  let t := clock w (ticks w + i)%nat + schema.Duration d in
  ∃ w' k, request.SetCookies l w = Returned tt w' ∧
    gin.SetCookieHeaders (ginCtx w')
      !! (length (gin.SetCookieHeaders (ginCtx w)) + i)%nat = Some k ∧
    http.Name k = schema.Name d ∧
    http.writtenExpires k
      = (if http.validCookieExpires t then Some (t / time.Second) else None) ∧
    t / time.Second * time.Second ≤ t
      < t / time.Second * time.Second + time.Second.
Proof.
  intros Hvalid Hi t. rewrite SetCookies_run.
  eexists. exists (cookieOf d (clock w (ticks w + i)%nat)).
  split; [reflexivity|]. split_all; try done; [|apply whole_second..].
  cbn. rewrite lookup_app_r by lia.
  replace (_ + i - _)%nat with i by lia.
  by apply emitted_lookup.
Qed.

(** X4 on the two directives of a token pair, at the second one: the
    reading is one millisecond past a whole second, the expiry written
    is the whole second. *)
Lemma X4_witness :
  clock example.signin (ticks example.signin + 1)%nat
    = 1000 * time.Second + time.Millisecond
  ∧ ∃ w' k,
    request.SetCookies
      [ {| schema.Name := "access_token"; schema.Value := "a.a@b.com";
           schema.Duration := 7 * 24 * time.Hour |};
        {| schema.Name := "refresh_token"; schema.Value := "r.a@b.com";
           schema.Duration := 30 * 24 * time.Hour |} ]
      example.signin = Returned tt w' ∧
    gin.SetCookieHeaders (ginCtx w')
      !! (length (gin.SetCookieHeaders (ginCtx example.signin)) + 1)%nat
      = Some k ∧
    http.Name k = "refresh_token" ∧
    http.writtenExpires k = Some (1000 + 30 * 24 * 3600).
Proof.
  split; [reflexivity|].
  destruct (X4_SetCookies_written_expiry
           [ {| schema.Name := "access_token"; schema.Value := "a.a@b.com";
                schema.Duration := 7 * 24 * time.Hour |};
             {| schema.Name := "refresh_token"; schema.Value := "r.a@b.com";
                schema.Duration := 30 * 24 * time.Hour |} ]
           example.signin 1
           {| schema.Name := "refresh_token"; schema.Value := "r.a@b.com";
              schema.Duration := 30 * 24 * time.Hour |})
    as (w' & k & Hrun & Hk & Hname & Hexp & _).
  - repeat constructor.
  - reflexivity.
  - exists w', k. split_all; [exact Hrun|exact Hk|exact Hname|exact Hexp].
Defined.

(** X5.  Setting the cookies of a list in one call is the same as
    setting a first part and then the rest in a second call. *)
Theorem X5_SetCookies_app {S} (l1 l2 : list schema.Cookie) (w : World S) :
  request.SetCookies (l1 ++ l2) w
  = (request.SetCookies l1;; request.SetCookies l2) w.
Proof.
  revert w. induction l1 as [|d r IH]; intros w; [reflexivity|].
  change ((d :: r) ++ l2) with (d :: (r ++ l2)).
  rewrite SetCookies_cons, IH.
  unfold mbind, Go_bind. by rewrite SetCookies_cons.
Qed.

(** * More on the handlers: every run *)

(** The runs of a handler, case by case: the validated body or the
    cookie is there or not, the service succeeds or fails, the failure
    is classified or not. *)
Ltac SignUp_runs ac w :=
  destruct (validatedBody_cases w) as [[creds Hkey]|Hkey];
  [ destruct (serviceInterface.SignUp (v1.authService ac) (opCtx w) creds
                (store w)) as [[u err] s'] eqn:Hsvc;
    rewrite (SignUp_run ac w creds u err s' Hkey Hsvc);
    destruct err as [e|];
    [destruct (errors.As e (errors.Custom customErr.AlreadyExistsError))|]
  | let p := fresh "p" in destruct (SignUp_panics ac w Hkey) as [p ->] ].

Ltac SignIn_runs ac w :=
  destruct (validatedBody_cases w) as [[creds Hkey]|Hkey];
  [ destruct (serviceInterface.SignIn (v1.authService ac) (opCtx w) creds
                (store w)) as [[tok err] s'] eqn:Hsvc;
    rewrite (SignIn_run ac w creds tok err s' Hkey Hsvc);
    destruct err as [e|];
    [destruct (errors.As e (errors.Custom customErr.InvalidCredentialsError))|]
  | let p := fresh "p" in destruct (SignIn_panics ac w Hkey) as [p ->] ].

Ltac Refresh_runs ac w :=
  let rt := fresh "rt" in
  destruct (gin.Cookie (ginCtx w) "refresh_token") as [rt [e|]] eqn:Hcookie;
  [ rewrite (Refresh_run_guard ac w rt e Hcookie)
  | destruct (serviceInterface.Refresh (v1.authService ac) (opCtx w)
                (mapper.MapToUserRefreshTokenDTO rt) (store w))
      as [[tok err] s'] eqn:Hsvc;
    rewrite (Refresh_run ac w rt tok err s' Hcookie Hsvc);
    destruct err as [e|]; [destruct (refreshRejected e)|] ].

Section EveryRun.
Context {S U : Type}.
Implicit Types (ac : v1.AuthController S U) (w : World S).

(** X6.  Whatever happens in a handler, also when it panics or stops at
    the guard, the timer of its context is released when it is left: the
    armed timers are those armed before the call. *)
Theorem X6_handlers_release_their_timer ac w :
  timers (finalWorld (v1.SignUp ac w)) = timers w
  ∧ timers (finalWorld (v1.SignIn ac w)) = timers w
  ∧ timers (finalWorld (v1.Refresh ac w)) = timers w.
Proof.
  split_all.
  - SignUp_runs ac w; reflexivity.
  - SignIn_runs ac w; reflexivity.
  - Refresh_runs ac w; reflexivity.
Qed.

(** X7.  A handler calls the service at most once, and only the method
    of its own operation: there is no retry and no second method. *)
Theorem X7_at_most_one_service_call ac w :
  (calls (finalWorld (v1.SignUp ac w)) = calls w
   ∨ ∃ ctx creds,
       calls (finalWorld (v1.SignUp ac w))
       = calls w ++ [SignUpCall ctx creds])
  ∧ (calls (finalWorld (v1.SignIn ac w)) = calls w
     ∨ ∃ ctx creds,
         calls (finalWorld (v1.SignIn ac w))
         = calls w ++ [SignInCall ctx creds])
  ∧ (calls (finalWorld (v1.Refresh ac w)) = calls w
     ∨ ∃ ctx envelope,
         calls (finalWorld (v1.Refresh ac w))
         = calls w ++ [RefreshCall ctx envelope]).
Proof.
  split_all.
  - SignUp_runs ac w; cbn; rewrite ?app_nil_r; eauto.
  - SignIn_runs ac w; cbn; rewrite ?app_nil_r; eauto.
  - Refresh_runs ac w; cbn; rewrite ?app_nil_r; eauto.
Qed.

(** X8.  Without a validated body of type [UserCredentialsDTO] under the
    key [validatedBody], [SignUp] and [SignIn] panic: with the missing-key
    panic when the key is absent, with a failed type assertion when the
    value has another type.  Nothing is written, the service is not
    called, nothing is logged, and the timer is released. *)
Theorem X8_missing_validated_body_panics ac w :
  (∀ creds, gin.MustGet (ginCtx w) "validatedBody"
            ≠ Some (gin.VUserCredentialsDTO creds)) →
  ∃ p w',
    v1.SignUp ac w = Panicked p w' ∧
    v1.SignIn ac w = Panicked p w' ∧
    p = match gin.MustGet (ginCtx w) "validatedBody" with
        | Some _ => InterfaceConversion "dto.UserCredentialsDTO"
        | None => KeyDoesNotExist "validatedBody"
        end ∧
    ginCtx w' = ginCtx w ∧ store w' = store w ∧ calls w' = calls w ∧
    logged w' = logged w ∧ timers w' = timers w.
Proof.
  intros Hkey.
  exists (match gin.MustGet (ginCtx w) "validatedBody" with
          | Some _ => InterfaceConversion "dto.UserCredentialsDTO"
          | None => KeyDoesNotExist "validatedBody"
          end),
         (after w (ginCtx w) (store w) 1 [] []).
  split_all; try (cbn; by rewrite ?app_nil_r).
  - unfold v1.SignUp. step_go.
    destruct (gin.MustGet (ginCtx w) "validatedBody") as [[?|d|?]|] eqn:E;
      try (by destruct (Hkey d)); cbn; finish_go.
  - unfold v1.SignIn. step_go.
    destruct (gin.MustGet (ginCtx w) "validatedBody") as [[?|d|?]|] eqn:E;
      try (by destruct (Hkey d)); cbn; finish_go.
Qed.

(** X9.  A handler that returns has written exactly one JSON document to
    the body, and a handler that panics has written none.  [Refresh],
    which reads no validated body, always returns. *)
Theorem X9_one_document_per_answer ac w :
  wroteOnce w (v1.SignUp ac w)
  ∧ wroteOnce w (v1.SignIn ac w)
  ∧ wroteOnce w (v1.Refresh ac w)
  ∧ ∃ w', v1.Refresh ac w = Returned tt w'.
Proof.
  split_all.
  - SignUp_runs ac w; cbn; eauto.
  - SignIn_runs ac w; cbn; eauto.
  - Refresh_runs ac w; cbn; eauto.
  - Refresh_runs ac w; eauto.
Qed.

(** X10.  The status of an answer is 200, 409 or 500 for [SignUp] and
    200, 401 or 500 for [SignIn] and [Refresh]; a handler that panics
    leaves the status as it found it. *)
Theorem X10_status_codes ac w :
  statusAmong [http.StatusOK; http.StatusConflict;
               http.StatusInternalServerError] w (v1.SignUp ac w)
  ∧ statusAmong [http.StatusOK; http.StatusUnauthorized;
                 http.StatusInternalServerError] w (v1.SignIn ac w)
  ∧ statusAmong [http.StatusOK; http.StatusUnauthorized;
                 http.StatusInternalServerError] w (v1.Refresh ac w).
Proof.
  split_all.
  - SignUp_runs ac w; cbn; try done; set_solver.
  - SignIn_runs ac w; cbn; try done; set_solver.
  - Refresh_runs ac w; cbn; try done; set_solver.
Qed.

(** X11.  A handler logs at most one entry, and only for an answer 500:
    the entry holds the error the service returned, and the body sent
    holds the text of that same error.  Answers 200, 401 and 409, the
    guard of [Refresh] and panics log nothing. *)
Theorem X11_only_internal_failures_are_logged ac w :
  loggedOnlyInternal w (finalWorld (v1.SignUp ac w))
  ∧ loggedOnlyInternal w (finalWorld (v1.SignIn ac w))
  ∧ loggedOnlyInternal w (finalWorld (v1.Refresh ac w)).
Proof.
  unfold loggedOnlyInternal. split_all.
  - SignUp_runs ac w; cbn; rewrite ?app_nil_r; eauto 8.
  - SignIn_runs ac w; cbn; rewrite ?app_nil_r; eauto 8.
  - Refresh_runs ac w; cbn; rewrite ?app_nil_r; eauto 8.
Qed.

(** X12.  On success the body of [SignIn] and of [Refresh] is a fixed
    message object: the tokens the service returned travel in the cookies
    only, never in the body. *)
Theorem X12_success_body_holds_no_token ac w :
  (∀ creds tok s',
     gin.MustGet (ginCtx w) "validatedBody"
       = Some (gin.VUserCredentialsDTO creds) →
     serviceInterface.SignIn (v1.authService ac) (opCtx w) creds (store w)
       = ((tok, None), s') →
     ∃ w', v1.SignIn ac w = Returned tt w' ∧
       gin.Body (ginCtx w') = gin.Body (ginCtx w) ++
         [ {[ "message" := gin.VString "Logged in successfully" ]} ])
  ∧ (∀ rt tok s',
     gin.Cookie (ginCtx w) "refresh_token" = (rt, None) →
     serviceInterface.Refresh (v1.authService ac) (opCtx w)
       (mapper.MapToUserRefreshTokenDTO rt) (store w) = ((tok, None), s') →
     ∃ w', v1.Refresh ac w = Returned tt w' ∧
       gin.Body (ginCtx w') = gin.Body (ginCtx w) ++
         [ {[ "message" := gin.VString "Tokens updated successfully" ]} ]).
Proof.
  split.
  - intros creds tok s' Hkey Hsvc.
    rewrite (SignIn_run ac w creds tok None s' Hkey Hsvc). eauto.
  - intros rt tok s' Hcookie Hsvc.
    rewrite (Refresh_run ac w rt tok None s' Hcookie Hsvc). eauto.
Qed.

(** X13.  When the clock does not go back, the [refresh_token] cookie of
    a successful [SignIn] or [Refresh] expires no earlier than the
    [access_token] cookie set just before it. *)
Theorem X13_refresh_cookie_outlives_access_cookie ac w :
  (∀ n, clock w n ≤ clock w (Datatypes.S n)) →
  (∀ creds tok s',
     gin.MustGet (ginCtx w) "validatedBody"
       = Some (gin.VUserCredentialsDTO creds) →
     serviceInterface.SignIn (v1.authService ac) (opCtx w) creds (store w)
       = ((tok, None), s') →
     ∃ w' a r, v1.SignIn ac w = Returned tt w' ∧
       gin.SetCookieHeaders (ginCtx w')
         = gin.SetCookieHeaders (ginCtx w) ++ [a; r] ∧
       http.Expires a ≤ http.Expires r)
  ∧ (∀ rt tok s',
     gin.Cookie (ginCtx w) "refresh_token" = (rt, None) →
     serviceInterface.Refresh (v1.authService ac) (opCtx w)
       (mapper.MapToUserRefreshTokenDTO rt) (store w) = ((tok, None), s') →
     ∃ w' a r, v1.Refresh ac w = Returned tt w' ∧
       gin.SetCookieHeaders (ginCtx w')
         = gin.SetCookieHeaders (ginCtx w) ++ [a; r] ∧
       http.Expires a ≤ http.Expires r).
Proof.
  intros Hclock. split.
  - intros creds tok s' Hkey Hsvc.
    rewrite (SignIn_run ac w creds tok None s' Hkey Hsvc).
    do 3 eexists. split_all; [reflexivity..|]. cbn.
    specialize (Hclock (Datatypes.S (ticks w))). lia.
  - intros rt tok s' Hcookie Hsvc.
    rewrite (Refresh_run ac w rt tok None s' Hcookie Hsvc).
    do 3 eexists. split_all; [reflexivity..|]. cbn.
    specialize (Hclock (Datatypes.S (ticks w))). lia.
Qed.

(** X14.  The guard of [Refresh] tests the presence of the cookie, not
    its value: whenever the request has a [refresh_token] cookie the
    service is called, once, with the unescaped value of the first such
    cookie, and with the empty string when that value is badly
    escaped. *)
Theorem X14_present_cookie_reaches_service ac w (v : string) :
  http.Request_Cookie (gin.RequestCookies (ginCtx w)) "refresh_token"
    = Some v →
  ∃ ctx,
    calls (finalWorld (v1.Refresh ac w))
    = calls w ++
        [ RefreshCall ctx
            {| dto.RefreshToken :=
                 if url.wellEscaped v then url.decode v else EmptyString |} ].
Proof.
  intros Hv.
  assert (Hcookie : gin.Cookie (ginCtx w) "refresh_token"
            = (if url.wellEscaped v then url.decode v else EmptyString, None)).
  { unfold gin.Cookie. rewrite Hv. unfold url.QueryUnescape.
    by destruct (url.wellEscaped v). }
  destruct (serviceInterface.Refresh (v1.authService ac) (opCtx w)
              (mapper.MapToUserRefreshTokenDTO
                 (if url.wellEscaped v then url.decode v else EmptyString))
              (store w)) as [[tok err] s'] eqn:Hsvc.
  rewrite (Refresh_run ac w _ tok err s' Hcookie Hsvc).
  exists (opCtx w).
  destruct err as [e|]; [destruct (refreshRejected e)|]; reflexivity.
Qed.

(** X15.  [SignUp] never sets a cookie, in any run: registering does
    not open a session. *)
Theorem X15_signup_never_sets_a_cookie ac w :
  gin.SetCookieHeaders (ginCtx (finalWorld (v1.SignUp ac w)))
  = gin.SetCookieHeaders (ginCtx w).
Proof. SignUp_runs ac w; cbn; by rewrite ?app_nil_r. Qed.

(** X16.  In every run of [SignIn] and of [Refresh] the token cookies and
    the status 200 come together: an answer 200 carries the two cookies,
    any other answer and a panic carry none. *)
Theorem X16_cookies_exactly_with_200 ac w :
  cookiesIffOK w (v1.SignIn ac w) ∧ cookiesIffOK w (v1.Refresh ac w).
Proof.
  split.
  - SignIn_runs ac w; cbn; rewrite ?app_nil_r; eauto 6.
  - Refresh_runs ac w; cbn; rewrite ?app_nil_r; eauto 6.
Qed.

End EveryRun.

(** X8 on a request that did not go through the validator. *)
Lemma X8_witness :
  ∃ p w',
    v1.SignUp fake.controller example.refresh = Panicked p w' ∧
    v1.SignIn fake.controller example.refresh = Panicked p w' ∧
    p = KeyDoesNotExist "validatedBody" ∧
    ginCtx w' = ginCtx example.refresh ∧ store w' = store example.refresh ∧
    calls w' = calls example.refresh ∧ logged w' = logged example.refresh ∧
    timers w' = timers example.refresh.
Proof.
  apply (X8_missing_validated_body_panics fake.controller example.refresh).
  intros creds H. vm_compute in H. discriminate.
Defined.

(** X12 on Alice's sign-in and on her refresh. *)
Lemma X12_witness :
  (∃ w', v1.SignIn fake.controller example.signin = Returned tt w' ∧
     gin.Body (ginCtx w') = gin.Body (ginCtx example.signin) ++
       [ {[ "message" := gin.VString "Logged in successfully" ]} ])
  ∧ (∃ w', v1.Refresh fake.controller example.refresh = Returned tt w' ∧
     gin.Body (ginCtx w') = gin.Body (ginCtx example.refresh) ++
       [ {[ "message" := gin.VString "Tokens updated successfully" ]} ]).
Proof.
  split.
  - destruct (X12_success_body_holds_no_token fake.controller example.signin)
      as [H _].
    apply (H fake.alice example.aliceTokens fake.withAlice);
      vm_compute; reflexivity.
  - destruct (X12_success_body_holds_no_token fake.controller example.refresh)
      as [_ H].
    apply (H "r.a@b.com" example.aliceTokens fake.withAlice);
      vm_compute; reflexivity.
Defined.

Lemma example_clock_monotone (c : gin.Context) (s : fake.Store) (n : nat) :
  clock (fake.world c s) n ≤ clock (fake.world c s) (Datatypes.S n).
Proof.
  cbn. unfold time.Second, time.Millisecond, time.Microsecond,
    time.Nanosecond. lia.
Defined.

(** X13 on Alice's sign-in and on her refresh, under a clock that
    advances by a millisecond at each reading. *)
Lemma X13_witness :
  (∃ w' a r, v1.SignIn fake.controller example.signin = Returned tt w' ∧
     gin.SetCookieHeaders (ginCtx w')
       = gin.SetCookieHeaders (ginCtx example.signin) ++ [a; r] ∧
     http.Expires a ≤ http.Expires r)
  ∧ (∃ w' a r, v1.Refresh fake.controller example.refresh = Returned tt w' ∧
     gin.SetCookieHeaders (ginCtx w')
       = gin.SetCookieHeaders (ginCtx example.refresh) ++ [a; r] ∧
     http.Expires a ≤ http.Expires r).
Proof.
  split.
  - destruct (X13_refresh_cookie_outlives_access_cookie fake.controller
                example.signin (example_clock_monotone _ _)) as [H _].
    apply (H fake.alice example.aliceTokens fake.withAlice);
      vm_compute; reflexivity.
  - destruct (X13_refresh_cookie_outlives_access_cookie fake.controller
                example.refresh (example_clock_monotone _ _)) as [_ H].
    apply (H "r.a@b.com" example.aliceTokens fake.withAlice);
      vm_compute; reflexivity.
Defined.

(** X14 on a refresh request whose cookie is badly escaped: the service
    is called with the empty string. *)
Lemma X14_witness :
  let w := fake.world (fake.request None [("refresh_token", "%zz")])
             fake.withAlice in
  ∃ ctx,
    calls (finalWorld (v1.Refresh fake.controller w))
    = calls w ++ [RefreshCall ctx {| dto.RefreshToken := EmptyString |}].
Proof.
  intros w.
  apply (X14_present_cookie_reaches_service fake.controller w "%zz").
  reflexivity.
Defined.
